(** * Choom signal bridge: a shallow embedding of the bridge core

    The development follows the Python sources under
    [services/signal-bridge]: [task_config.py] (configuration store and quiet
    period), [signal_handler.py] (RPC transport, envelope parser, intent
    resolver), [choom_client.py] (companion client), [scheduler.py]
    (condition evaluation, health check) and [bridge.py] (list aliases,
    message routing).

    Conventions.
    - A Python [str] is a [string] whose characters are the code points
      U+0000 to U+00FF; [isspace] and [lower] follow Python on that range.
    - A Python [float] is idealised as a rational number ([Q]).
    - A [dict] decoded from JSON is an association list in insertion order
      with pairwise distinct keys; a [dict] used only as a finite map
      (the user-activity map, the pending-request table) is a [gmap].
    - A Python exception is the [Raise] outcome of the [result] type.
    - Collaborators (the HTTP service, the clock, the configuration file)
      are arguments: the answers of the service, the readings of the clock,
      the content of the file. *)

From Stdlib Require Import ZArith QArith Ascii String List Bool Lia Lqa.
From stdpp Require Import base option list gmap strings.
Import ListNotations.

Set Default Proof Using "Type".
Set Warnings "-register-all".

(** ** Python outcomes *)

Inductive exn : Type :=
  | AttributeError
  | TypeError
  | ValueError
  | KeyError
  | ConnectionError
  | TimeoutError
  | RuntimeError
  | RequestException
  | ChatError.

Inductive result (A : Type) : Type :=
  | Ok (a : A)
  | Raise (e : exn).
Arguments Ok {A} a.
Arguments Raise {A} e.

(** [result] is a monad; stdpp's [x ← r; k] notation sequences fallible
    steps and stops at the first exception. *)
#[global] Instance result_ret : MRet result := fun _ a => Ok a.
#[global] Instance result_bind : MBind result := fun _ _ k r =>
  match r with
  | Ok a => k a
  | Raise e => Raise e
  end.

#[global] Instance result_fmap : FMap result := fun _ _ f r =>
  match r with
  | Ok a => Ok (f a)
  | Raise e => Raise e
  end.

(** ** Python string primitives *)

Module Py.

Definition code (c : ascii) : nat := nat_of_ascii c.

Definition between (lo hi n : nat) : bool := (lo <=? n)%nat && (n <=? hi)%nat.

(** [str.isspace] on one character. *)
Definition isspace (c : ascii) : bool :=
  between 9 13 (code c) || between 28 32 (code c)
  || (code c =? 133)%nat || (code c =? 160)%nat.

(** One character of [str.lower]. *)
Definition lower_char (c : ascii) : ascii :=
  let n := code c in
  if between 65 90 n || between 192 214 n || between 216 222 n
  then ascii_of_nat (n + 32) else c.

Fixpoint lower (s : string) : string :=
  match s with
  | EmptyString => EmptyString
  | String c s' => String (lower_char c) (lower s')
  end.

(** Membership of a character in a set of characters given as a string. *)
Fixpoint char_in (c : ascii) (chars : string) : bool :=
  match chars with
  | EmptyString => false
  | String d chars' => Ascii.eqb c d || char_in c chars'
  end.

Fixpoint lstrip_by (p : ascii → bool) (s : string) : string :=
  match s with
  | EmptyString => EmptyString
  | String c s' => if p c then lstrip_by p s' else s
  end.

Fixpoint rstrip_by (p : ascii → bool) (s : string) : string :=
  match s with
  | EmptyString => EmptyString
  | String c s' =>
      match rstrip_by p s' with
      | EmptyString => if p c then EmptyString else String c EmptyString
      | r => String c r
      end
  end.

Definition strip_by (p : ascii → bool) (s : string) : string :=
  rstrip_by p (lstrip_by p s).

(** [s.strip()], [s.strip(chars)], [s.rstrip(chars)]. *)
Definition strip (s : string) : string := strip_by isspace s.
Definition strip_chars (chars s : string) : string :=
  strip_by (fun c => char_in c chars) s.
Definition rstrip_chars (chars s : string) : string :=
  rstrip_by (fun c => char_in c chars) s.

(** [sep in s] and [s.split(sep, 1)] for a one-character separator:
    [None] when the separator does not occur, otherwise the text before
    and after its first occurrence. *)
Fixpoint split_once (sep : ascii) (s : string) : option (string * string) :=
  match s with
  | EmptyString => None
  | String c s' =>
      if Ascii.eqb c sep then Some (EmptyString, s')
      else match split_once sep s' with
           | Some (a, b) => Some (String c a, b)
           | None => None
           end
  end.

(** [s.split(sep)] for a one-character separator. *)
Fixpoint split_char (sep : ascii) (s : string) : list string :=
  match s with
  | EmptyString => [EmptyString]
  | String c s' =>
      if Ascii.eqb c sep then EmptyString :: split_char sep s'
      else match split_char sep s' with
           | w :: ws => String c w :: ws
           | [] => [String c EmptyString]
           end
  end.

(** [s.split()]: the maximal runs of non-whitespace characters. *)
Fixpoint split_ws (s : string) : list string :=
  match s with
  | EmptyString => []
  | String c s' =>
      if isspace c then split_ws s'
      else match s' with
           | EmptyString => [String c EmptyString]
           | String c' _ =>
               if isspace c' then String c EmptyString :: split_ws s'
               else match split_ws s' with
                    | w :: ws => String c w :: ws
                    | [] => [String c EmptyString]
                    end
           end
  end.

(** The first word of a string that starts with a non-space character, and
    what follows it. *)
Fixpoint span_word (s : string) : string * string :=
  match s with
  | EmptyString => (EmptyString, EmptyString)
  | String c s' =>
      if isspace c then (EmptyString, s)
      else let '(w, r) := span_word s' in (String c w, r)
  end.

(** [s.split(None, 1)]: leading whitespace is skipped, the first word is cut
    off, and the rest, after the whitespace that follows the word, is kept
    as it is (trailing whitespace included); an empty rest is left out. *)
Definition split_ws_1 (s : string) : list string :=
  match lstrip_by isspace s with
  | EmptyString => []
  | t =>
      let '(w, r) := span_word t in
      match lstrip_by isspace r with
      | EmptyString => [w]
      | r' => [w; r']
      end
  end.

(** [sep.join(words)]. *)
Fixpoint join (sep : string) (ws : list string) : string :=
  match ws with
  | [] => EmptyString
  | [w] => w
  | w :: ws' => w +:+ sep +:+ join sep ws'
  end.

Definition startswith_char (c : ascii) (s : string) : bool :=
  match s with
  | String d _ => Ascii.eqb c d
  | EmptyString => false
  end.

(** [s[1:]]. *)
Definition tail (s : string) : string :=
  match s with
  | String _ s' => s'
  | EmptyString => EmptyString
  end.

(** [s.startswith(p)] and [p in s] for strings. *)
Fixpoint startswith (p s : string) : bool :=
  match p, s with
  | EmptyString, _ => true
  | String a p', String b s' => Ascii.eqb a b && startswith p' s'
  | String _ _, EmptyString => false
  end.

Fixpoint contains (needle s : string) : bool :=
  startswith needle s
  || match s with
     | EmptyString => false
     | String _ s' => contains needle s'
     end.

(** The characters of a string, each as a string of length one. *)
Fixpoint chars (s : string) : list string :=
  match s with
  | EmptyString => []
  | String c s' => String c EmptyString :: chars s'
  end.

(** [t] is [s] without some leading characters. *)
Inductive suffix (t : string) : string → Prop :=
  | suffix_refl : suffix t t
  | suffix_cons (c : ascii) (s : string) : suffix t s → suffix t (String c s).

(** A string does not start with a character of the class [p]. *)
Definition head_ok (p : ascii → bool) (s : string) : Prop :=
  match s with
  | String c _ => p c = false
  | EmptyString => True
  end.

(** *** [int(s)] on a string *)

(** The characters [int] skips around a numeral. *)
Definition int_space (c : ascii) : bool :=
  between 9 13 (code c) || (code c =? 32)%nat
  || (code c =? 133)%nat || (code c =? 160)%nat.

Definition digit_val (c : ascii) : option Z :=
  if between 48 57 (code c) then Some (Z.of_nat (code c - 48)) else None.

(** Decimal digits with single underscores between them. *)
Fixpoint int_digits (acc : Z) (prev_digit : bool) (s : string) : option Z :=
  match s with
  | EmptyString => if prev_digit then Some acc else None
  | String c s' =>
      match digit_val c with
      | Some d => int_digits (10 * acc + d)%Z true s'
      | None =>
          if Ascii.eqb c "_" && prev_digit then int_digits acc false s'
          else None
      end
  end.

Definition int (s : string) : option Z :=
  match strip_by int_space s with
  | String "+" r => int_digits 0 false r
  | String "-" r => Z.opp <$> int_digits 0 false r
  | t => int_digits 0 false t
  end.

End Py.

(** ** JSON values and Python dictionaries *)

Inductive json : Type :=
  | JNull
  | JBool (b : bool)
  | JInt (z : Z)
  | JFloat (q : Q)
  | JStr (s : string)
  | JArr (l : list json)
  | JObj (d : list (string * json)).

Abbreviation dict := (list (string * json)).

(** [d.get(k)] on a table with string keys: the first entry under [k]. *)
Fixpoint table_get {V : Type} (k : string) (t : list (string * V)) : option V :=
  match t with
  | [] => None
  | (k', v) :: t' => if String.eqb k k' then Some v else table_get k t'
  end.

(** [d[k] = v]: an existing key keeps its position, a new key goes last. *)
Fixpoint dict_set (k : string) (v : json) (d : dict) : dict :=
  match d with
  | [] => [(k, v)]
  | (k', v') :: d' =>
      if String.eqb k k' then (k, v) :: d' else (k', v') :: dict_set k v d'
  end.

Definition keys (d : dict) : list string := map fst d.

(** [k in d]. *)
Definition has_key (k : string) (d : dict) : bool :=
  match table_get k d with Some _ => true | None => false end.

(** [d.get(k, default)] where [d] is a dict. *)
Definition get_or (k : string) (default : json) (d : dict) : json :=
  match table_get k d with Some v => v | None => default end.

(** [x.get(k, default)] on an arbitrary value: only a dict has [get]. *)
Definition py_get (x : json) (k : string) (default : json) : result json :=
  match x with
  | JObj d => Ok (get_or k default d)
  | _ => Raise AttributeError
  end.

(** Truth value of a value, as [if x:] and [not x] take it. *)
Definition truthy (x : json) : bool :=
  match x with
  | JNull => false
  | JBool b => b
  | JInt z => negb (z =? 0)%Z
  | JFloat q => negb (Qeq_bool q 0)
  | JStr s => negb (String.eqb s "")
  | JArr l => match l with [] => false | _ => true end
  | JObj d => match d with [] => false | _ => true end
  end.

(** The number a [bool], [int] or [float] stands for. *)
Definition num_of (x : json) : option Q :=
  match x with
  | JBool b => Some (if b then 1%Q else 0%Q)
  | JInt z => Some (inject_Z z)
  | JFloat q => Some q
  | _ => None
  end.

(** [a == b]: numbers by value, strings and [None] by identity of content,
    lists pointwise, dicts by size and by the value under each key. *)
Fixpoint py_eqb (a b : json) {struct a} : bool :=
  match a, b with
  | JNull, JNull => true
  | JStr s, JStr t => String.eqb s t
  | JArr xs, JArr ys =>
      (fix all2 (xs ys : list json) : bool :=
         match xs, ys with
         | [], [] => true
         | x :: xs', y :: ys' => py_eqb x y && all2 xs' ys'
         | _, _ => false
         end) xs ys
  | JObj xs, JObj ys =>
      (length xs =? length ys)%nat
      && forallb (fun kv => match table_get (fst kv) ys with
                            | Some w => py_eqb (snd kv) w
                            | None => false
                            end) xs
  | (JBool _ | JInt _ | JFloat _), (JBool _ | JInt _ | JFloat _) =>
      match num_of a, num_of b with
      | Some p, Some q => Qeq_bool p q
      | _, _ => false
      end
  | _, _ => false
  end.

(** Every dict inside a value has pairwise distinct keys. *)
Fixpoint wf_json (x : json) : bool :=
  match x with
  | JArr l => forallb wf_json l
  | JObj d =>
      bool_decide (NoDup (map fst d)) && forallb (fun kv => wf_json (snd kv)) d
  | _ => true
  end.

(** [x if isinstance(x, dict) else {}]. *)
Definition dict_of_json (x : json) : dict :=
  match x with JObj d => d | _ => [] end.

(** [a or b]. *)
Definition py_or (a b : json) : json := if truthy a then a else b.

(** [k in x] for a string [k]: a key of a dict, an element of a list, a
    substring of a string; other values are not containers. *)
Definition py_in (k : string) (x : json) : result bool :=
  match x with
  | JObj d => Ok (has_key k d)
  | JArr l => Ok (existsb (fun y => py_eqb (JStr k) y) l)
  | JStr s => Ok (Py.contains k s)
  | _ => Raise TypeError
  end.

(** [x[k]] for a string [k]. *)
Definition py_index (x : json) (k : string) : result json :=
  match x with
  | JObj d => match table_get k d with Some v => Ok v | None => Raise KeyError end
  | _ => Raise TypeError
  end.

(** The items a [for] loop draws from a value. *)
Definition py_iter (x : json) : result (list json) :=
  match x with
  | JArr l => Ok l
  | JObj d => Ok (map (fun kv => JStr (fst kv)) d)
  | JStr s => Ok (map JStr (Py.chars s))
  | _ => Raise TypeError
  end.

(** ** task_config.py: the configuration store *)

Module TaskConfig.

Definition task (enabled : bool) (k : string) (v : json) : string → string * json :=
  fun name => (name, JObj [("enabled", JBool enabled); (k, v)]).

Definition DEFAULT_CONFIG : dict :=
  [ ("tasks", JObj
      [ task true "time" (JStr "07:00") "morning_briefing";
        task true "time" (JStr "07:00") "weather_check_07:00";
        task true "time" (JStr "12:00") "weather_check_12:00";
        task true "time" (JStr "18:00") "weather_check_18:00";
        task true "time" (JStr "12:00") "aurora_check_12:00";
        task true "time" (JStr "18:00") "aurora_check_18:00";
        task true "interval_minutes" (JInt 30) "system_health";
        task false "time" (JStr "04:00") "yt_download" ]);
    ("yt_downloader", JObj
      [ ("max_videos_per_channel", JInt 3);
        ("channels", JArr []) ]);
    ("heartbeat", JObj
      [ ("quiet_start", JStr "21:00");
        ("quiet_end", JStr "06:00") ]) ].

(** [_deep_merge]: [result = base.copy()], then every entry of [override]
    is stored in [result], merged recursively when both sides hold a dict.
    The recursion descends through the values of [override]. *)
Fixpoint merge_into (base : dict) (override : json) {struct override} : dict :=
  match override with
  | JObj o =>
      fold_left
        (fun result kv =>
           match table_get (fst kv) result, snd kv with
           | Some (JObj rb), JObj _ =>
               dict_set (fst kv) (JObj (merge_into rb (snd kv))) result
           | _, _ => dict_set (fst kv) (snd kv) result
           end) o base
  | _ => base
  end.

Definition _deep_merge (base override : dict) : dict :=
  merge_into base (JObj override).

(** What [_deep_merge] stores under a key of the override, and one round of
    its loop. *)
Definition merged (r : option json) (v : json) : json :=
  match r, v with
  | Some (JObj rb), JObj o => JObj (_deep_merge rb o)
  | _, _ => v
  end.

Definition merge_step (result : dict) (kv : string * json) : dict :=
  dict_set (fst kv) (merged (table_get (fst kv) result) (snd kv)) result.

(** The file [bridge-config.json]: absent, present but not JSON, or holding
    a JSON text. [json.dump] followed by [json.load] returns the value
    written. *)
Inductive file : Type :=
  | Missing
  | Garbage
  | Content (j : json).

(** [save_config]: the document replaces the file. A document of type
    [dict] is serializable and the file system is taken to be reliable, so
    the [except] branch, which returns [False], is not reached. *)
Definition save_config (config : dict) (f : file) : bool * file :=
  (true, Content (JObj config)).

(** [load_config]: a missing file is created from the defaults; a file
    that does not decode to a dict makes [json.load] or [override.items()]
    raise, and the handler returns the defaults. *)
Definition load_config (f : file) : dict * file :=
  match f with
  | Content (JObj config) => (_deep_merge DEFAULT_CONFIG config, f)
  | Content _ => (DEFAULT_CONFIG, f)
  | Garbage => (DEFAULT_CONFIG, f)
  | Missing => (DEFAULT_CONFIG, snd (save_config DEFAULT_CONFIG f))
  end.

(** [is_task_enabled]. The value stored under ["enabled"] is returned as it
    is; callers take its truth value. *)
Definition is_task_enabled (task_id : string) (f : file) : result json * file :=
  let '(config, f') := load_config f in
  (tasks ← Ok (get_or "tasks" (JObj []) config);
   task ← py_get tasks task_id (JObj []);
   py_get task "enabled" (JBool true),
   f').

(** [h, m = map(int, s.split(":"))]: exactly two fields, both numerals. *)
Definition parse_hm (x : json) : result (Z * Z) :=
  match x with
  | JStr s =>
      match Py.split_char ":" s with
      | [a; b] =>
          match Py.int a, Py.int b with
          | Some h, Some m => Ok (h, m)
          | _, _ => Raise ValueError
          end
      | _ => Raise ValueError
      end
  | _ => Raise AttributeError
  end.

(** The quiet range of a configuration in minutes of the day:
    [(start_minutes, end_minutes)]. *)
Definition quiet_bounds (config : dict) : result (Z * Z) :=
  heartbeat ← Ok (get_or "heartbeat" (JObj []) config);
  quiet_start ← py_get heartbeat "quiet_start" (JStr "21:00");
  quiet_end ← py_get heartbeat "quiet_end" (JStr "06:00");
  s ← parse_hm quiet_start;
  e ← parse_hm quiet_end;
  Ok (s.1 * 60 + s.2, e.1 * 60 + e.2)%Z.

(** [is_quiet_period], with the reading [now.hour], [now.minute] of the
    clock as arguments. *)
Definition is_quiet_period (f : file) (hour minute : Z) : result bool * file :=
  let '(config, f') := load_config f in
  (b ← quiet_bounds config;
   let '(start_minutes, end_minutes) := b in
   let current_minutes := (hour * 60 + minute)%Z in
   Ok (if (start_minutes <=? end_minutes)%Z
       then (start_minutes <=? current_minutes)%Z
            && (current_minutes <? end_minutes)%Z
       else (start_minutes <=? current_minutes)%Z
            || (current_minutes <? end_minutes)%Z),
   f').

(** The hypothesis of the round-trip law: at every level where the defaults
    hold a dict and the document holds a dict too, every key of the
    defaults is a key of the document. *)
Fixpoint covers (base d : json) {struct base} : bool :=
  match base, d with
  | JObj bs, JObj ds =>
      forallb (fun kv => match table_get (fst kv) ds with
                         | Some dv => covers (snd kv) dv
                         | None => false
                         end) bs
  | _, _ => true
  end.

(** A document written by the web UI: the defaults in another order, two
    changed settings and two members the defaults do not have. *)
Definition sample_document : dict :=
  [ ("reminders", JArr []);
    ("heartbeat", JObj
      [ ("custom_tasks", JArr []);
        ("quiet_end", JStr "07:30");
        ("quiet_start", JStr "22:00") ]);
    ("yt_downloader", JObj
      [ ("channels", JArr [JStr "UC123"]);
        ("max_videos_per_channel", JInt 3) ]) ]
  ++ [ ("tasks", get_or "tasks" JNull DEFAULT_CONFIG) ].

End TaskConfig.

(** ** bridge.py: list-name aliases *)

Module Bridge.

(** [LIST_ALIASES], in source order. *)
Definition LIST_ALIASES : list (string * string) :=
  [ ("grocery", "groceries");
    ("groceries", "groceries");
    ("shopping", "groceries");
    ("hardware", "hardware store");
    ("todo", "to do") ].

(** [_resolve_list_name]: [LIST_ALIASES.get(name.lower(), name)]. *)
Definition _resolve_list_name (name : string) : string :=
  match table_get (Py.lower name) LIST_ALIASES with
  | Some target => target
  | None => name
  end.

End Bridge.

(** ** signal_handler.py: envelope parser and intent resolver *)

Module MessageParser.

Record attachment_info : Type := {
  att_id : json;
  att_content_type : json;
  att_filename : json;
  att_size : json;
}.

Record quote_info : Type := {
  quote_id : json;
  quote_author : json;
  quote_text : json;
}.

(** The normalized message dict. *)
Record intake : Type := {
  source : json;
  timestamp : json;
  message : json;
  attachments : list attachment_info;
  is_voice_note : bool;
  quote : option quote_info;
}.

(** [envelope.get("source") or envelope.get("sourceNumber")]. *)
Definition envelope_source (envelope : dict) : json :=
  py_or (get_or "source" JNull envelope) (get_or "sourceNumber" JNull envelope).

(** The payload the parser selects: [dataMessage] when the key is present,
    otherwise [syncMessage.sentMessage]; [JNull] stands for [data = None]. *)
Definition select_data (envelope : dict) : result json :=
  match table_get "dataMessage" envelope with
  | Some data => Ok data
  | None =>
      match table_get "syncMessage" envelope with
      | Some sync =>
          b ← py_in "sentMessage" sync;
          if b : bool then py_index sync "sentMessage" else Ok JNull
      | None => Ok JNull
      end
  end.

(** One round of the attachment loop. *)
Definition parse_attachment (attachment : json) : result (attachment_info * bool) :=
  i ← py_get attachment "id" JNull;
  ct ← py_get attachment "contentType" (JStr "");
  fn ← py_get attachment "filename" JNull;
  sz ← py_get attachment "size" (JInt 0);
  vn ← py_get attachment "voiceNote" JNull;
  voice ← (if truthy vn then Ok true else py_in "audio" ct);
  Ok ({| att_id := i; att_content_type := ct; att_filename := fn; att_size := sz |},
      voice).

Fixpoint parse_attachments (l : list json) : result (list attachment_info * bool) :=
  match l with
  | [] => Ok ([], false)
  | a :: l' =>
      r ← parse_attachment a;
      rs ← parse_attachments l';
      Ok (r.1 :: rs.1, r.2 || rs.2)
  end.

Definition parse_quote (data : json) : result (option quote_info) :=
  b ← py_in "quote" data;
  if b : bool then
    q ← py_index data "quote";
    i ← py_get q "id" JNull;
    a ← py_get q "author" JNull;
    t ← py_get q "text" JNull;
    Ok (Some {| quote_id := i; quote_author := a; quote_text := t |})
  else Ok None.

(** [parse_envelope]: [Ok None] is the source's [return None]. *)
Definition parse_envelope (envelope : dict) : result (option intake) :=
  let source := envelope_source envelope in
  data ← select_data envelope;
  if negb (truthy data) || negb (truthy source) then Ok None else
  message_text ← py_get data "message" (JStr "");
  atts ← py_get data "attachments" JNull;
  if negb (truthy message_text) && negb (truthy atts) then Ok None else
  ts ← py_get data "timestamp" (JInt 0);
  atts ← py_get data "attachments" (JArr []);
  items ← py_iter atts;
  parsed ← parse_attachments items;
  q ← parse_quote data;
  Ok (Some {| source := source; timestamp := ts; message := message_text;
              attachments := parsed.1; is_voice_note := parsed.2; quote := q |}).

(** *** The parser in the words of the specification *)

Definition dict_of (x : option json) : dict :=
  match x with Some (JObj d) => d | _ => [] end.

(** The [sentMessage] of the envelope's [syncMessage], if any. *)
Definition sync_sent (envelope : dict) : option json :=
  table_get "sentMessage" (dict_of (table_get "syncMessage" envelope)).

(** The envelope carries message text, in [dataMessage] or in the sync-sent
    message. *)
Definition carries_text (envelope : dict) : bool :=
  truthy (get_or "message" JNull (dict_of (table_get "dataMessage" envelope)))
  || truthy (get_or "message" JNull (dict_of (sync_sent envelope))).

Definition carries_attachments (envelope : dict) : bool :=
  truthy (get_or "attachments" JNull (dict_of (table_get "dataMessage" envelope)))
  || truthy (get_or "attachments" JNull (dict_of (sync_sent envelope))).

Definition carries_sync_sent (envelope : dict) : bool :=
  match sync_sent envelope with Some _ => true | None => false end.

(** The payload of an envelope: [dataMessage] when the key is present,
    otherwise the sync-sent message. *)
Definition payload (envelope : dict) : option json :=
  match table_get "dataMessage" envelope with
  | Some data => Some data
  | None => sync_sent envelope
  end.

Definition has_content (data : option json) : bool :=
  truthy (get_or "message" (JStr "") (dict_of data))
  || truthy (get_or "attachments" JNull (dict_of data)).

(** The shape the transport documents: payloads are objects (or null), the
    attachment list is a list of objects whose [contentType] is a string,
    a quote is an object. *)
Definition shaped_attachment (a : json) : bool :=
  match a with
  | JObj d => match table_get "contentType" d with
              | None | Some (JStr _) => true
              | Some _ => false
              end
  | _ => false
  end.

Definition shaped_payload (data : json) : bool :=
  match data with
  | JNull => true
  | JObj d =>
      match table_get "attachments" d with
      | None => true
      | Some (JArr l) => forallb shaped_attachment l
      | Some _ => false
      end
      && match table_get "quote" d with
         | None | Some (JObj _) => true
         | Some _ => false
         end
  | _ => false
  end.

Definition shaped (envelope : dict) : bool :=
  match table_get "dataMessage" envelope with
  | Some data => shaped_payload data
  | None =>
      match table_get "syncMessage" envelope with
      | None => true
      | Some (JObj sync) =>
          match table_get "sentMessage" sync with
          | None => true
          | Some data => shaped_payload data
          end
      | Some _ => false
      end
  end.

(** The invariant of the parser, as the specification words it, for one
    envelope: no intake exactly when the envelope carries neither text nor
    attachments nor a sync-sent message. *)
Definition no_intake_iff_nothing_carried (envelope : dict) : Prop :=
  parse_envelope envelope = Ok None ↔
  carries_text envelope = false
  ∧ carries_attachments envelope = false
  ∧ carries_sync_sent envelope = false.

(** A sync-sent message without text or attachments, and a data message
    with text but without a sender. *)
Definition empty_sync_envelope : dict :=
  [ ("source", JStr "+15550100");
    ("timestamp", JInt 1700000000000);
    ("syncMessage", JObj [("sentMessage", JObj [("timestamp", JInt 1700000000000)])]) ].

Definition anonymous_envelope : dict :=
  [ ("timestamp", JInt 1700000000000);
    ("dataMessage", JObj [("timestamp", JInt 1700000000000);
                          ("message", JStr "hello")]) ].

Definition voice_note_envelope : dict :=
  [ ("sourceNumber", JStr "+15550100");
    ("dataMessage",
     JObj [ ("timestamp", JInt 1700000000000);
            ("message", JNull);
            ("attachments",
             JArr [JObj [ ("id", JStr "a1.aac");
                          ("contentType", JStr "audio/aac");
                          ("size", JInt 2048) ]]) ]) ].

(** *** Intent resolver *)

(** [CHOOM_NAME_VARIANTS], in source order. *)
Definition CHOOM_NAME_VARIANTS : list (string * string) :=
  [ ("genesis", "Genesis"); ("lissa", "Lissa"); ("aloy", "Aloy");
    ("anya", "Anya"); ("optic", "Optic");
    ("lisa", "Lissa"); ("lysa", "Lissa"); ("lesa", "Lissa");
    ("leesa", "Lissa"); ("elissa", "Lissa"); ("alyssa", "Lissa");
    ("alloy", "Aloy"); ("eloy", "Aloy"); ("aloi", "Aloy"); ("ahoy", "Aloy");
    ("ania", "Anya"); ("oniya", "Anya");
    ("optek", "Optic"); ("optik", "Optic"); ("optics", "Optic") ].

Definition PUNCT : string := ",:.!?".

(** [_match_choom_name]. *)
Definition _match_choom_name (name : string) : option string :=
  table_get (Py.rstrip_chars PUNCT (Py.strip (Py.lower name)))
            CHOOM_NAME_VARIANTS.

Definition SKIP_WORDS : list string :=
  [ "hey"; "hi"; "hello"; "yo"; "oh"; "ok"; "okay"; "so";
    "well"; "um"; "uh"; "like"; "please"; "dear"; "hiya" ].

Definition is_skip_word (w : string) : bool :=
  existsb (String.eqb w) SKIP_WORDS.

(** Pattern 1 for one separator: ["Name: message"], ["Name, message"]. *)
Definition by_separator (sep : ascii) (message : string) : option (string * string) :=
  match Py.split_once sep message with
  | Some (potential_name, rest) =>
      match _match_choom_name (Py.strip potential_name) with
      | Some matched => Some (matched, Py.strip rest)
      | None => None
      end
  | None => None
  end.

(** Pattern 2: ["@Name message"]. *)
Definition by_at_sign (message : string) : option (string * string) :=
  if Py.startswith_char "@" message then
    match Py.split_ws_1 (Py.tail message) with
    | first :: parts =>
        match _match_choom_name first with
        | Some matched =>
            Some (matched, match parts with r :: _ => r | [] => EmptyString end)
        | None => None
        end
    | [] => None
    end
  else None.

(** Pattern 3: scan at most [n] leading words, skipping filler words. *)
Fixpoint scan_words (n : nat) (words : list string) : option (string * string) :=
  match n, words with
  | S n', word :: rest =>
      let clean_word := Py.strip_chars PUNCT word in
      match _match_choom_name clean_word with
      | Some matched => Some (matched, Py.strip (Py.join " " rest))
      | None =>
          if is_skip_word (Py.lower clean_word) then scan_words n' rest
          else None
      end
  | _, _ => None
  end.

(** [extract_choom_name]. *)
Definition extract_choom_name (message : string) : option string * string :=
  let message := Py.strip message in
  match by_separator ":" message with
  | Some (name, cleaned) => (Some name, cleaned)
  | None =>
  match by_separator "," message with
  | Some (name, cleaned) => (Some name, cleaned)
  | None =>
  match by_at_sign message with
  | Some (name, cleaned) => (Some name, cleaned)
  | None =>
  match scan_words 5 (Py.split_ws message) with
  | Some (name, cleaned) => (Some name, cleaned)
  | None => (None, message)
  end end end end.

(** Idempotence of the resolver on its output, as the specification words
    it, for one input message. *)
Definition resolver_idempotent_at (message : string) : Prop :=
  ∀ name cleaned,
    extract_choom_name message = (Some name, cleaned) →
    extract_choom_name cleaned = (None, cleaned).

End MessageParser.

(** ** signal_handler.py: the RPC transport *)

Module SignalHandler.

(** The handler object. [threading.Event] objects live in a heap of flags;
    [_pending_requests] maps a request id to the address of its event, so
    that a waiter keeps its event when the table is cleared. [_sock] and
    [_sock_file] record whether the attribute holds an object. *)
Record handler : Type := {
  _sock : bool;
  _sock_file : bool;
  _connected : bool;
  _stop_event : bool;
  _request_id : Z;
  events : list bool;
  _pending_requests : gmap Z nat;
  _responses : gmap Z dict;
  _message_queue : list json;
  wire : list dict;
}.

Definition with_pending (p : gmap Z nat) (h : handler) : handler :=
  {| _sock := _sock h; _sock_file := _sock_file h; _connected := _connected h;
     _stop_event := _stop_event h; _request_id := _request_id h;
     events := events h; _pending_requests := p; _responses := _responses h;
     _message_queue := _message_queue h; wire := wire h |}.

Definition with_responses (r : gmap Z dict) (h : handler) : handler :=
  {| _sock := _sock h; _sock_file := _sock_file h; _connected := _connected h;
     _stop_event := _stop_event h; _request_id := _request_id h;
     events := events h; _pending_requests := _pending_requests h;
     _responses := r; _message_queue := _message_queue h; wire := wire h |}.

Definition with_events (e : list bool) (h : handler) : handler :=
  {| _sock := _sock h; _sock_file := _sock_file h; _connected := _connected h;
     _stop_event := _stop_event h; _request_id := _request_id h;
     events := e; _pending_requests := _pending_requests h;
     _responses := _responses h; _message_queue := _message_queue h;
     wire := wire h |}.

Definition with_connected (b : bool) (h : handler) : handler :=
  {| _sock := _sock h; _sock_file := _sock_file h; _connected := b;
     _stop_event := _stop_event h; _request_id := _request_id h;
     events := events h; _pending_requests := _pending_requests h;
     _responses := _responses h; _message_queue := _message_queue h;
     wire := wire h |}.

(** [event.set()] for every event of a list of addresses. *)
Definition set_events (addrs : list nat) (evs : list bool) : list bool :=
  foldr (fun a evs => <[a := true]> evs) evs addrs.

(** [event.is_set()]. *)
Definition is_set (ev : nat) (h : handler) : bool :=
  default false (events h !! ev).

(** [disconnect]. *)
Definition disconnect (h : handler) : handler :=
  {| _stop_event := true;
     _connected := false;
     _sock_file := false;
     _sock := false;
     events := set_events (map snd (map_to_list (_pending_requests h))) (events h);
     _pending_requests := ∅;
     _responses := ∅;
     _request_id := _request_id h;
     _message_queue := _message_queue h;
     wire := wire h |}.

(** The waiter a decoded line answers: [data["id"]] when ["id" in data] and
    the id is a key of [_pending_requests]. *)
Definition answered (data : dict) (h : handler) : option (Z * nat) :=
  match table_get "id" data with
  | Some (JInt req_id) =>
      match _pending_requests h !! req_id with
      | Some ev => Some (req_id, ev)
      | None => None
      end
  | _ => None
  end.

(** One decoded line (a JSON object) in the reader loop: a response wakes
    its waiter, a [receive] notification is queued, anything else is
    discarded. *)
Definition reader_deliver (data : dict) (h : handler) : handler :=
  match answered data h with
  | Some (req_id, ev) =>
      with_events (<[ev := true]> (events h))
        (with_responses (<[req_id := data]> (_responses h)) h)
  | None =>
      if py_eqb (get_or "method" JNull data) (JStr "receive") then
        {| _sock := _sock h; _sock_file := _sock_file h;
           _connected := _connected h; _stop_event := _stop_event h;
           _request_id := _request_id h; events := events h;
           _pending_requests := _pending_requests h;
           _responses := _responses h;
           _message_queue :=
             _message_queue h ++ [get_or "params" (JObj []) data];
           wire := wire h |}
      else h
  end.

(** [_send_request] up to the point where the caller blocks in
    [event.wait]: the request id and the address of the caller's event.
    [sendall_ok] tells whether the socket accepts the line. *)
Definition send_request_begin (method : string) (params : json)
    (sendall_ok : bool) (h : handler) : result (Z * nat) * handler :=
  if negb (_connected h) then (Raise ConnectionError, h) else
  let req_id := (_request_id h + 1)%Z in
  let request :=
    [("jsonrpc", JStr "2.0"); ("id", JInt req_id); ("method", JStr method)]
    ++ (if truthy params then [("params", params)] else []) in
  let ev := length (events h) in
  let h1 :=
    {| _sock := _sock h; _sock_file := _sock_file h;
       _connected := _connected h; _stop_event := _stop_event h;
       _request_id := req_id; events := events h ++ [false];
       _pending_requests := <[req_id := ev]> (_pending_requests h);
       _responses := _responses h; _message_queue := _message_queue h;
       wire := wire h |} in
  if negb (_sock h1) then (Raise AttributeError, h1)
  else if sendall_ok then
    (Ok (req_id, ev),
     {| _sock := _sock h1; _sock_file := _sock_file h1;
        _connected := _connected h1; _stop_event := _stop_event h1;
        _request_id := _request_id h1; events := events h1;
        _pending_requests := _pending_requests h1;
        _responses := _responses h1; _message_queue := _message_queue h1;
        wire := wire h1 ++ [request] |})
  else
    (Raise ConnectionError,
     with_connected false
       (with_pending (delete req_id (_pending_requests h1)) h1)).

(** [_send_request] from the return of [event.wait(timeout)] on: the wait
    returns the flag of the caller's event, [False] meaning that the timeout
    elapsed first. *)
Definition send_request_finish (req_id : Z) (ev : nat) (h : handler)
    : result dict * handler :=
  let h1 := with_pending (delete req_id (_pending_requests h)) h in
  if negb (is_set ev h) then (Raise TimeoutError, h1) else
  let response := default [] (_responses h1 !! req_id) in
  let h2 := with_responses (delete req_id (_responses h1)) h1 in
  if has_key "error" response then (Raise RuntimeError, h2)
  else (Ok response, h2).

(** [send_message] of the handler, from the return of the wait on: any
    exception of [_send_request] gives [False]. *)
Definition send_message_finish (req_id : Z) (ev : nat) (h : handler)
    : bool * handler :=
  match send_request_finish req_id ev h with
  | (Ok _, h') => (true, h')
  | (Raise _, h') => (false, h')
  end.

(** A handler right after a successful [connect]. *)
Definition connected_handler : handler :=
  {| _sock := true; _sock_file := true; _connected := true;
     _stop_event := false; _request_id := 0; events := [];
     _pending_requests := ∅; _responses := ∅; _message_queue := [];
     wire := [] |}.

End SignalHandler.

(** ** choom_client.py: the companion client *)

Module ChoomClient.

Record ChoomInfo : Type := {
  id : string;
  name : string;
  description : json;
  voice_id : json;
  companion_id : json;
  llm_model : json;
  llm_endpoint : json;
  image_settings : json;
}.

Record ChatResponse : Type := {
  content : string;
  tool_calls : list json;
  tool_results : list json;
  images : list dict;
  chat_id : json;
}.

(** The client object. *)
Record client : Type := {
  chooms : gmap string ChoomInfo;
  chats : gmap string json;
  _chooms_fetched_at : Q;
  _chooms_ttl : Q;
  _last_user_activity : gmap string Q;
}.

Definition with_activity (a : gmap string Q) (c : client) : client :=
  {| chooms := chooms c; chats := chats c;
     _chooms_fetched_at := _chooms_fetched_at c; _chooms_ttl := _chooms_ttl c;
     _last_user_activity := a |}.

Definition with_chooms (m : gmap string ChoomInfo) (c : client) : client :=
  {| chooms := m; chats := chats c;
     _chooms_fetched_at := _chooms_fetched_at c; _chooms_ttl := _chooms_ttl c;
     _last_user_activity := _last_user_activity c |}.

Definition with_fetched_at (t : Q) (c : client) : client :=
  {| chooms := chooms c; chats := chats c;
     _chooms_fetched_at := t; _chooms_ttl := _chooms_ttl c;
     _last_user_activity := _last_user_activity c |}.

Definition with_chats (m : gmap string json) (c : client) : client :=
  {| chooms := chooms c; chats := m;
     _chooms_fetched_at := _chooms_fetched_at c; _chooms_ttl := _chooms_ttl c;
     _last_user_activity := _last_user_activity c |}.

(** [ChoomClient()] right after construction. *)
Definition new_client : client :=
  {| chooms := ∅; chats := ∅; _chooms_fetched_at := 0; _chooms_ttl := 60;
     _last_user_activity := ∅ |}.

Definition Qltb (a b : Q) : bool := negb (Qle_bool b a).

(** [record_user_activity]; [now] is the reading of [time.time()]. *)
Definition record_user_activity (choom_name : string) (now : Q) (c : client)
    : client :=
  with_activity (<[Py.lower choom_name := now]> (_last_user_activity c)) c.

(** [is_user_active]; [now] is the reading of [time.time()]. *)
Definition is_user_active (choom_name : string) (window_seconds : Q) (now : Q)
    (c : client) : bool :=
  let last := default 0%Q (_last_user_activity c !! Py.lower choom_name) in
  Qltb (now - last) window_seconds.

(** *** The world a call of [send_message] runs in *)

(** One line of the event stream of [POST /api/chat]. *)
Inductive sse_line : Type :=
  | Skipped               (* empty, or not starting with ["data: "] *)
  | Undecodable           (* not UTF-8 *)
  | BadJson               (* ["data: "] followed by text that is not JSON *)
  | Data (j : json).

(** The companion HTTP service, as the answers it gives. *)
Record server : Type := {
  GET_chooms : result (list ChoomInfo);
  GET_chat : json → result unit;
  POST_chats : string → string → result json;
  POST_chat : dict → result (list sse_line);
}.

(** Constants of [config.py] and of the process environment. *)
Record constants : Type := {
  LLM_ENDPOINT : string;
  MEMORY_ENDPOINT : string;
  OPENWEATHER_API_KEY : string;
  BRAVE_API_KEY : string;
  DEFAULT_WEATHER_LOCATION : string;
  DEFAULT_WEATHER_LAT : result Q;
  DEFAULT_WEATHER_LON : result Q;
  SEARXNG_ENDPOINT : string;
}.

(** Readings of the clock during one call. *)
Record clock : Type := {
  t_fresh : Q;      (* [time.time()] in [_ensure_chooms_fresh] *)
  t_fetched : Q;    (* [time.time()] at the end of [fetch_chooms] *)
  today : string;   (* [dt.now().strftime('%Y-%m-%d')] *)
}.

Record world : Type := {
  cl : client;
  config_file : TaskConfig.file;
}.

(** State and exceptions. *)
Definition M (A : Type) : Type := world → result A * world.

#[global] Instance M_ret : MRet M := fun _ a w => (Ok a, w).
#[global] Instance M_bind : MBind M := fun _ _ k m w =>
  match m w with
  | (Ok a, w') => k a w'
  | (Raise e, w') => (Raise e, w')
  end.

Definition raise {A : Type} (e : exn) : M A := fun w => (Raise e, w).
Definition lift {A : Type} (r : result A) : M A := fun w => (r, w).
Definition get_client : M client := fun w => (Ok (cl w), w).
Definition modify_client (g : client → client) : M unit :=
  fun w => (Ok tt, {| cl := g (cl w); config_file := config_file w |}).
(** [try: m except: h]. *)
Definition try_except {A : Type} (m : M A) (h : M A) : M A := fun w =>
  match m w with
  | (Ok a, w') => (Ok a, w')
  | (Raise _, w') => h w'
  end.

Definition load_bridge_config : M dict := fun w =>
  let '(config, f) := TaskConfig.load_config (config_file w) in
  (Ok config, {| cl := cl w; config_file := f |}).

(** A computation keeps the user-activity map. *)
Definition keeps_activity {A : Type} (m : M A) : Prop :=
  ∀ w r w', m w = (r, w') →
    _last_user_activity (cl w') = _last_user_activity (cl w).

Section SendMessage.

Variable sv : server.
Variable k : constants.
Variable clk : clock.

(** [fetch_chooms]: the directory is emptied, then filled entry by entry. *)
Definition fetch_chooms : M (list ChoomInfo) :=
  data ← lift (GET_chooms sv);
  modify_client
    (fun c =>
       with_fetched_at (t_fetched clk)
         (with_chooms
            (fold_left (fun m ch => <[Py.lower (name ch) := ch]> m) data ∅) c));;
  c ← get_client;
  mret (map snd (map_to_list (chooms c))).

(** [_ensure_chooms_fresh]. *)
Definition _ensure_chooms_fresh : M unit :=
  c ← get_client;
  if bool_decide (chooms c = ∅)
     || Qltb (_chooms_ttl c) (t_fresh clk - _chooms_fetched_at c)
  then try_except (fetch_chooms ≫= fun _ => mret tt) (mret tt)
  else mret tt.

(** [get_choom_by_name]. *)
Definition get_choom_by_name (choom_name : string) : M (option ChoomInfo) :=
  _ensure_chooms_fresh;;
  c ← get_client;
  mret (chooms c !! Py.lower choom_name).

(** [get_or_create_chat]. *)
Definition create_chat (choom_id : string) : M json :=
  chat ← lift (POST_chats sv choom_id "Signal Conversation");
  modify_client (fun c => with_chats (<[choom_id := chat]> (chats c)) c);;
  mret chat.

Definition get_or_create_chat (choom_id : string) : M json :=
  c ← get_client;
  match chats c !! choom_id with
  | Some chat =>
      try_except (lift (GET_chat sv chat) ≫= fun _ => mret chat)
                 (create_chat choom_id)
  | None => create_chat choom_id
  end.

(** [LLM_ENDPOINT.replace("/v1", "")]. *)
Fixpoint drop_v1 (s : string) : string :=
  match s with
  | String "/" (String "v" (String "1" r)) => drop_v1 r
  | String c r => String c (drop_v1 r)
  | EmptyString => EmptyString
  end.

(** [d.update(value)]. *)
Definition dict_update (d value : dict) : dict :=
  fold_left (fun d kv => dict_set (fst kv) (snd kv) d) value d.

(** [x.get(key, default)] where computing the default may raise. *)
Definition py_get_lazy (x : json) (key : string) (default : result json)
    : result json :=
  d ← default; py_get x key d.

(** The settings block of the request. *)
Definition default_settings (bridge_cfg : dict) : result dict :=
  let weather_cfg := get_or "weather" (JObj []) bridge_cfg in
  let search_cfg := get_or "search" (JObj []) bridge_cfg in
  let image_cfg := get_or "imageGen" (JObj []) bridge_cfg in
  w1 ← py_get weather_cfg "apiKey" (JStr (OPENWEATHER_API_KEY k));
  w2 ← py_get weather_cfg "provider" (JStr "openweathermap");
  w3 ← py_get weather_cfg "location" (JStr (DEFAULT_WEATHER_LOCATION k));
  w4 ← py_get_lazy weather_cfg "latitude" (JFloat <$> DEFAULT_WEATHER_LAT k);
  w5 ← py_get_lazy weather_cfg "longitude" (JFloat <$> DEFAULT_WEATHER_LON k);
  w6 ← py_get weather_cfg "useCoordinates" (JBool true);
  w7 ← py_get weather_cfg "units" (JStr "imperial");
  w8 ← py_get weather_cfg "cacheMinutes" (JInt 30);
  s1 ← py_get search_cfg "provider"
         (JStr (if String.eqb (BRAVE_API_KEY k) "" then "searxng" else "brave"));
  s2 ← py_get search_cfg "braveApiKey" (JStr (BRAVE_API_KEY k));
  s3 ← py_get search_cfg "searxngEndpoint" (JStr (SEARXNG_ENDPOINT k));
  s4 ← py_get search_cfg "maxResults" (JInt 5);
  let base : dict :=
    [ ("llm", JObj [ ("endpoint", JStr (LLM_ENDPOINT k));
                     ("temperature", JFloat (7 # 10));
                     ("maxTokens", JInt 4096) ]);
      ("memory", JObj [ ("endpoint", JStr (MEMORY_ENDPOINT k)) ]);
      ("weather", JObj [ ("apiKey", w1); ("provider", w2); ("location", w3);
                         ("latitude", w4); ("longitude", w5);
                         ("useCoordinates", w6); ("units", w7);
                         ("cacheMinutes", w8) ]);
      ("search", JObj [ ("provider", s1); ("braveApiKey", s2);
                        ("searxngEndpoint", s3); ("maxResults", s4) ]) ] in
  let d1 := if truthy image_cfg then dict_set "imageGen" image_cfg base else base in
  let vision_cfg := get_or "vision" (JObj []) bridge_cfg in
  let d2 :=
    if truthy vision_cfg then dict_set "vision" vision_cfg d1
    else dict_set "vision"
           (JObj [ ("endpoint", JStr (drop_v1 (LLM_ENDPOINT k)));
                   ("model", JStr "vision-model");
                   ("maxTokens", JInt 1024);
                   ("temperature", JFloat (3 # 10)) ]) d1 in
  let ha_cfg := get_or "homeAssistant" (JObj []) bridge_cfg in
  ha ← (if truthy ha_cfg then
          u ← py_get ha_cfg "baseUrl" JNull;
          if truthy u then
            t ← py_get ha_cfg "accessToken" JNull; Ok (truthy t)
          else Ok false
        else Ok false);
  let d3 := if ha : bool then dict_set "homeAssistant" ha_cfg d2 else d2 in
  let providers_cfg := get_or "providers" (JArr []) bridge_cfg in
  Ok (if truthy providers_cfg then dict_set "providers" providers_cfg d3 else d3).

(** Merging the caller's settings, then the overrides of the companion. *)
Definition merge_settings (settings : dict) (d : dict) : result dict :=
  fold_left
    (fun acc kv =>
       d ← acc;
       match table_get (fst kv) d, snd kv with
       | Some (JObj cur), JObj value =>
           Ok (dict_set (fst kv) (JObj (dict_update cur value)) d)
       | Some _, JObj _ => Raise AttributeError
       | _, _ => Ok (dict_set (fst kv) (snd kv) d)
       end)
    settings (Ok d).

(** [default_settings["llm"][key] = value]. *)
Definition set_llm (key : string) (value : json) (d : dict) : result dict :=
  match table_get "llm" d with
  | Some (JObj llm) => Ok (dict_set "llm" (JObj (dict_set key value llm)) d)
  | Some _ => Raise TypeError
  | None => Raise KeyError
  end.

Definition choom_overrides (choom : ChoomInfo) (d : dict) : result dict :=
  d ← (if truthy (llm_model choom) then set_llm "model" (llm_model choom) d else Ok d);
  d ← (if truthy (llm_endpoint choom) then set_llm "endpoint" (llm_endpoint choom) d else Ok d);
  d ← (if truthy (image_settings choom) then
         match get_or "imageGen" (JObj []) d with
         | JObj cur =>
             Ok (dict_set "imageGen"
                   (JObj (dict_update cur (dict_of_json (image_settings choom)))) d)
         | _ => Raise TypeError
         end
       else Ok d);
  (* the log line reads [default_settings['llm'].get(...)] *)
  llm ← py_index (JObj d) "llm";
  _ ← py_get llm "model" (JStr "default");
  Ok d.

Definition build_settings (bridge_cfg : dict) (choom : ChoomInfo)
    (settings : option dict) : result dict :=
  d ← default_settings bridge_cfg;
  d ← (match settings with
       | Some (_ :: _ as s) => merge_settings s d
       | _ => Ok d
       end);
  choom_overrides choom d.

(** The accumulators of the stream loop. *)
Record acc : Type := {
  a_content : string;
  a_tool_calls : list json;
  a_tool_results : list json;
  a_images : list dict;
}.

(** The values [len(img_url)] and [img_url[:60]] raise on. *)
Definition url_preview_ok (img_url : json) : bool :=
  match img_url with
  | JBool true | JInt _ | JFloat _ => negb (truthy img_url)
  | JObj d => (length d <=? 60)%nat
  | _ => true
  end.

(** One decoded event: [inl] continues the loop, [inr] is [break]. *)
Definition on_event (data : json) (a : acc) : result (acc + acc) :=
  event_type ← py_get data "type" JNull;
  if py_eqb event_type (JStr "content") then
    c ← py_get data "content" (JStr "");
    match c with
    | JStr s => Ok (inl {| a_content := a_content a +:+ s;
                           a_tool_calls := a_tool_calls a;
                           a_tool_results := a_tool_results a;
                           a_images := a_images a |})
    | _ => Raise TypeError
    end
  else if py_eqb event_type (JStr "tool_call") then
    tc ← py_get data "toolCall" (JObj []);
    _ ← py_get tc "name" (JStr "unknown");
    Ok (inl {| a_content := a_content a;
               a_tool_calls := a_tool_calls a ++ [tc];
               a_tool_results := a_tool_results a;
               a_images := a_images a |})
  else if py_eqb event_type (JStr "tool_result") then
    tr ← py_get data "toolResult" (JObj []);
    Ok (inl {| a_content := a_content a;
               a_tool_calls := a_tool_calls a;
               a_tool_results := a_tool_results a ++ [tr];
               a_images := a_images a |})
  else if py_eqb event_type (JStr "image_generated") then
    img_url ← py_get data "imageUrl" JNull;
    img_id ← py_get data "imageId" JNull;
    img_prompt ← py_get data "prompt" JNull;
    if url_preview_ok img_url then
      Ok (inl {| a_content := a_content a;
                 a_tool_calls := a_tool_calls a;
                 a_tool_results := a_tool_results a;
                 a_images := a_images a ++
                   [[("url", img_url); ("id", img_id); ("prompt", img_prompt)]] |})
    else Raise TypeError
  else if py_eqb event_type (JStr "done") then Ok (inr a)
  else if py_eqb event_type (JStr "error") then Raise ChatError
  else Ok (inl a).

Fixpoint read_stream (lines : list sse_line) (a : acc) : result acc :=
  match lines with
  | [] => Ok a
  | Skipped :: ls | BadJson :: ls => read_stream ls a
  | Undecodable :: _ => Raise ValueError
  | Data j :: ls =>
      r ← on_event j a;
      match r with
      | inl a' => read_stream ls a'
      | inr a' => Ok a'
      end
  end.

(** [send_message]. *)
Definition send_message (choom_name message : string) (settings : option dict)
    (fresh_chat : bool) : M ChatResponse :=
  found ← get_choom_by_name choom_name;
  match found with
  | None => raise ValueError
  | Some choom =>
      chat ← (if fresh_chat
              then lift (POST_chats sv (id choom) ("Briefing " +:+ today clk))
              else get_or_create_chat (id choom));
      bridge_cfg ← load_bridge_config;
      d ← lift (build_settings bridge_cfg choom settings);
      lines ← lift (POST_chat sv [ ("choomId", JStr (id choom));
                                   ("chatId", chat);
                                   ("message", JStr message);
                                   ("settings", JObj d) ]);
      a ← lift (read_stream lines
                  {| a_content := ""; a_tool_calls := [];
                     a_tool_results := []; a_images := [] |});
      mret {| content := a_content a; tool_calls := a_tool_calls a;
              tool_results := a_tool_results a; images := a_images a;
              chat_id := chat |}
  end.

End SendMessage.

(** bridge.py, [_process_message]: the two calls that route a message to a
    companion; [now] is the clock reading inside [record_user_activity]. *)
Definition route_to_choom (sv : server) (k : constants) (clk : clock)
    (now : Q) (choom_name cleaned_message : string) : M ChatResponse :=
  fun w =>
    send_message sv k clk choom_name cleaned_message None false
      {| cl := record_user_activity choom_name now (cl w);
         config_file := config_file w |}.

(** The timestamp the user-activity map holds for a companion. *)
Definition activity_of (choom_name : string) (w : world) : option Q :=
  _last_user_activity (cl w) !! Py.lower choom_name.

(** The invariant as the specification words it, for one call of
    [send_message] that starts in [w] with the clock reading [t_pre] taken
    immediately before: when the call returns, the map holds a timestamp
    for the companion that is at least [t_pre]. *)
Definition activity_recorded_by_send (sv : server) (k : constants)
    (clk : clock) (t_pre : Q) (choom_name message : string) (w : world) : Prop :=
  ∀ r w',
    send_message sv k clk choom_name message None false w = (Ok r, w') →
    ∃ t, activity_of choom_name w' = Some t ∧ (t_pre <= t)%Q.

(** A service with one companion that answers every turn with one
    [content] event and [done]. *)
Definition genesis : ChoomInfo :=
  {| id := "c1"; name := "Genesis"; description := JNull; voice_id := JNull;
     companion_id := JNull; llm_model := JNull; llm_endpoint := JNull;
     image_settings := JNull |}.

Definition demo_server : server :=
  {| GET_chooms := Ok [genesis];
     GET_chat := fun _ => Ok tt;
     POST_chats := fun _ _ => Ok (JStr "chat-1");
     POST_chat := fun _ =>
       Ok [ Data (JObj [("type", JStr "content"); ("content", JStr "Hello!")]);
            Data (JObj [("type", JStr "done")]) ] |}.

Definition demo_constants : constants :=
  {| LLM_ENDPOINT := "http://localhost:1234/v1";
     MEMORY_ENDPOINT := "http://localhost:8100";
     OPENWEATHER_API_KEY := ""; BRAVE_API_KEY := "";
     DEFAULT_WEATHER_LOCATION := ""; DEFAULT_WEATHER_LAT := Ok 0%Q;
     DEFAULT_WEATHER_LON := Ok 0%Q; SEARXNG_ENDPOINT := "" |}.

Definition demo_clock : clock :=
  {| t_fresh := 1000; t_fetched := 1000; today := "2026-01-01" |}.

Definition fresh_world : world :=
  {| cl := new_client; config_file := TaskConfig.Missing |}.

End ChoomClient.

(** ** scheduler.py: condition evaluation and the health check *)

Module Scheduler.

Definition nl : string := String (ascii_of_nat 10) EmptyString.

(** A call of [send_message_to_owner]. *)
Record owner_message : Type := {
  text : string;
  include_audio : bool;
  choom_name : option string;
}.

Section Builtins.

(** [float(s)] on a string, and [str(x)] on a value that is not a string,
    are the interpreter's. *)
Variable float_of_str : string → option Q.
Variable str_of : json → string.

(** [float(x)]. *)
Definition py_float (x : json) : result Q :=
  match x with
  | JBool _ | JInt _ | JFloat _ =>
      match num_of x with Some q => Ok q | None => Raise TypeError end
  | JStr s =>
      match float_of_str s with Some q => Ok q | None => Raise ValueError end
  | _ => Raise TypeError
  end.

(** [f"{x}"]. *)
Definition fmt (x : json) : string :=
  match x with
  | JStr s => s
  | _ => str_of x
  end.

Definition field_map : list (string * string) :=
  [ ("temperature", "temperature");
    ("windSpeed", "windSpeed");
    ("humidity", "humidity");
    ("temp", "temperature");
    ("wind", "windSpeed") ].

Definition compare_op (op : json) (actual_value value : Q) : bool :=
  if py_eqb op (JStr "<") then ChoomClient.Qltb actual_value value
  else if py_eqb op (JStr ">") then ChoomClient.Qltb value actual_value
  else if py_eqb op (JStr "<=") then Qle_bool actual_value value
  else if py_eqb op (JStr ">=") then Qle_bool value actual_value
  else if py_eqb op (JStr "==") then Qeq_bool actual_value value
  else false.

(** The body of the [try] block of [_eval_weather_condition];
    [weather_data] is the outcome of [self.choom.get_weather()]. *)
Definition weather_condition_body (field op value : json)
    (weather_data : result json) : result bool :=
  weather_data ← weather_data;
  current ← py_get weather_data "current" (JObj []);
  match field with
  | JStr f =>
      let actual_field := default f (table_get f field_map) in
      actual_value ← py_get current actual_field JNull;
      match actual_value with
      | JNull => Ok false
      | _ =>
          a ← py_float actual_value;
          v ← py_float value;
          Ok (compare_op op a v)
      end
  | JArr _ | JObj _ => Raise TypeError
  | _ =>
      _ ← py_get current "" JNull;
      Ok false
  end.

(** [_eval_weather_condition]: any exception gives [False]. *)
Definition _eval_weather_condition (condition : dict)
    (weather_data : result json) : bool :=
  let field := get_or "field" (JStr "temperature") condition in
  let op := get_or "op" (JStr "<") condition in
  let value := get_or "value" (JInt 0) condition in
  match weather_condition_body field op value weather_data with
  | Ok b => b
  | Raise _ => false
  end.

(** *** The health check *)

(** The loop over [services.items()]. *)
Definition collect_issues (services : dict) : list string :=
  fold_left
    (fun issues kv =>
       match snd kv with
       | JObj service_info =>
           let status := get_or "status" (JStr "unknown") service_info in
           if negb (py_eqb status (JStr "connected"))
           then issues ++ ["- " +:+ fst kv +:+ ": " +:+ fmt status]
           else issues
       | _ => issues
       end)
    services [].

Definition alert (message : string) : owner_message :=
  {| text := message; include_audio := false; choom_name := Some "System" |}.

(** The [try] block of [_system_health_check]: the messages handed to
    [send_message_to_owner], and the configuration file afterwards. *)
Definition health_check_body (health : json) (hour minute : Z)
    (f : TaskConfig.file) : result (list owner_message) * TaskConfig.file :=
  match py_in "error" health with
  | Raise e => (Raise e, f)
  | Ok true =>
      match TaskConfig.is_quiet_period f hour minute with
      | (Raise e, f') => (Raise e, f')
      | (Ok true, f') => (Ok [], f')
      | (Ok false, f') =>
          (err ← py_index health "error";
           Ok [alert ("System Alert: Health check failed - " +:+ fmt err)],
           f')
      end
  | Ok false =>
      match (s ← py_get health "services" (JObj []);
             match s with
             | JObj services => Ok (collect_issues services)
             | _ => Raise AttributeError
             end) with
      | Raise e => (Raise e, f)
      | Ok [] => (Ok [], f)
      | Ok issues =>
          match TaskConfig.is_quiet_period f hour minute with
          | (Raise e, f') => (Raise e, f')
          | (Ok true, f') => (Ok [], f')
          | (Ok false, f') =>
              (Ok [alert ("System Alert: Service issues detected" +:+ nl +:+ nl
                          +:+ Py.join nl issues)],
               f')
          end
      end
  end.

(** [_system_health_check]; [health] is what [self.choom.check_health()]
    returned, [hour] and [minute] the clock reading of [is_quiet_period].
    An exception of [is_task_enabled] leaves the job; one inside the [try]
    block is logged. *)
Definition _system_health_check (health : json) (hour minute : Z)
    (f : TaskConfig.file) : result (list owner_message) * TaskConfig.file :=
  match TaskConfig.is_task_enabled "system_health" f with
  | (Raise e, f1) => (Raise e, f1)
  | (Ok enabled, f1) =>
      if negb (truthy enabled) then (Ok [], f1)
      else match health_check_body health hour minute f1 with
           | (Ok sent, f2) => (Ok sent, f2)
           | (Raise _, f2) => (Ok [], f2)
           end
  end.

(** *** The health check in the words of the specification *)

(** The services that report a status other than ["connected"], with the
    status each reports. *)
Definition affected (services : dict) : list (string * json) :=
  omap (fun kv =>
          match snd kv with
          | JObj info =>
              let status := get_or "status" (JStr "unknown") info in
              if py_eqb status (JStr "connected") then None
              else Some (fst kv, status)
          | _ => None
          end) services.

Definition issue_line (ns : string * json) : string :=
  "- " +:+ fst ns +:+ ": " +:+ fmt (snd ns).

Definition alert_text (services : dict) : string :=
  "System Alert: Service issues detected" +:+ nl +:+ nl
  +:+ Py.join nl (map issue_line (affected services)).

End Builtins.

(** A health report with one service down and one that reports nothing. *)
Definition degraded_health : dict :=
  [ ("services",
     JObj [ ("llm", JObj [("status", JStr "connected")]);
            ("tts", JObj [("status", JStr "disconnected")]);
            ("memory", JObj [("status", JStr "connected")]);
            ("stt", JObj [("latency", JInt 12)]) ]) ].

(** *** The weather condition in the words of the specification *)

Inductive weather_field : Type := temperature | windSpeed | humidity.
Inductive cmp_op : Type := Lt | Gt | Le | Ge | Eq.

Definition field_key (fld : weather_field) : string :=
  match fld with
  | temperature => "temperature"
  | windSpeed => "windSpeed"
  | humidity => "humidity"
  end.

Definition op_symbol (o : cmp_op) : string :=
  match o with
  | Lt => "<" | Gt => ">" | Le => "<=" | Ge => ">=" | Eq => "=="
  end.

Definition holds (o : cmp_op) (a v : Z) : bool :=
  match o with
  | Lt => (a <? v)%Z | Gt => (v <? a)%Z | Le => (a <=? v)%Z
  | Ge => (v <=? a)%Z | Eq => (a =? v)%Z
  end.

(** The condition [{type: weather, field, op, value}]. *)
Definition weather_condition (fld : weather_field) (o : cmp_op) (value : Z) : dict :=
  [ ("type", JStr "weather"); ("field", JStr (field_key fld));
    ("op", JStr (op_symbol o)); ("value", JInt value) ].

(** A body of [GET /api/weather] of the documented shape. *)
Definition weather_body (temp wind hum : Z) : json :=
  JObj [ ("weather",
          JObj [ ("temperature", JInt temp); ("description", JStr "clear sky");
                 ("windSpeed", JInt wind); ("humidity", JInt hum);
                 ("feelsLike", JInt temp); ("location", JStr "Fairbanks") ]) ].

Definition body_field (fld : weather_field) (temp wind hum : Z) : Z :=
  match fld with
  | temperature => temp
  | windSpeed => wind
  | humidity => hum
  end.

End Scheduler.

(** ** task_config.py: reminders and custom heartbeats *)

Module Reminders.
Import TaskConfig.

(** [get_reminders]. *)
Definition get_reminders (f : file) : json * file :=
  let '(config, f') := load_config f in
  (get_or "reminders" (JArr []) config, f').

(** The record [add_reminder] appends; [created_at] is the reading of
    [datetime.now().isoformat()]. *)
Definition reminder (reminder_id text remind_at created_at : string) : json :=
  JObj [ ("id", JStr reminder_id); ("text", JStr text);
         ("remind_at", JStr remind_at); ("created_at", JStr created_at) ].

(** [add_reminder]: only a list has [append]. *)
Definition add_reminder (reminder_id text remind_at created_at : string)
    (f : file) : result bool * file :=
  let '(config, f1) := load_config f in
  let config :=
    if has_key "reminders" config then config
    else dict_set "reminders" (JArr []) config in
  match get_or "reminders" JNull config with
  | JArr l =>
      let config :=
        dict_set "reminders"
          (JArr (l ++ [reminder reminder_id text remind_at created_at])) config in
      let '(saved, f2) := save_config config f1 in
      (Ok saved, f2)
  | _ => (Raise AttributeError, f1)
  end.

(** [r["id"] != reminder_id]. *)
Definition other_id (reminder_id : string) (r : json) : result bool :=
  i ← py_index r "id";
  Ok (negb (py_eqb i (JStr reminder_id))).

(** [[r for r in reminders if r["id"] != reminder_id]]. *)
Fixpoint without_id (reminder_id : string) (l : list json) : result (list json) :=
  match l with
  | [] => Ok []
  | r :: l' =>
      keep ← other_id reminder_id r;
      rest ← without_id reminder_id l';
      Ok (if keep : bool then r :: rest else rest)
  end.

(** [remove_reminder]. *)
Definition remove_reminder (reminder_id : string) (f : file) : result bool * file :=
  let '(config, f1) := load_config f in
  match (items ← py_iter (get_or "reminders" (JArr []) config);
         without_id reminder_id items) with
  | Ok kept =>
      let '(saved, f2) := save_config (dict_set "reminders" (JArr kept) config) f1 in
      (Ok saved, f2)
  | Raise e => (Raise e, f1)
  end.

(** The id a reminder carries, when it is an object with a string id. *)
Definition reminder_id_of (r : json) : option string :=
  match r with
  | JObj d => match table_get "id" d with Some (JStr i) => Some i | _ => None end
  | _ => None
  end.

End Reminders.

(** ** signal_handler.py: more of the parser *)

Module Intake.
Import MessageParser.

(** The canonical companion names, the values of [CHOOM_NAME_VARIANTS]. *)
Definition CANONICAL : list string :=
  ["Genesis"; "Lissa"; "Aloy"; "Anya"; "Optic"].

(** An attachment marks the message as a voice note: the transport flags
    it, or its content type contains ["audio"]. *)
Definition flags_voice (attachment : json) : bool :=
  truthy (get_or "voiceNote" JNull (dict_of_json attachment))
  || match py_in "audio" (get_or "contentType" (JStr "") (dict_of_json attachment)) with
     | Ok b => b
     | Raise _ => false
     end.

End Intake.

(** ** signal_handler.py: more of the transport *)

Module Transport.
Import SignalHandler.

(** [receive_messages]: the queue is drained in arrival order. *)
Definition receive_messages (h : handler) : list json * handler :=
  (_message_queue h,
   {| _sock := _sock h; _sock_file := _sock_file h;
      _connected := _connected h; _stop_event := _stop_event h;
      _request_id := _request_id h; events := events h;
      _pending_requests := _pending_requests h;
      _responses := _responses h; _message_queue := []; wire := wire h |}).

(** The reader loop over a list of decoded lines. *)
Definition reader_run (lines : list dict) (h : handler) : handler :=
  fold_left (fun h data => reader_deliver data h) lines h.

(** What the request table keeps: every pending id has been handed out, its
    event exists, and no two waiters share an event. *)
Definition table_ok (pending : gmap Z nat) (last_id : Z) (n_events : nat) : Prop :=
  (∀ i ev, pending !! i = Some ev → (i <= last_id)%Z ∧ ev < n_events)
  ∧ (∀ i j ev, pending !! i = Some ev → pending !! j = Some ev → i = j).

Definition well_formed (h : handler) : Prop :=
  table_ok (_pending_requests h) (_request_id h) (length (events h)).

(** A line is a notification of an incoming message. *)
Definition is_receive (data : dict) : bool :=
  py_eqb (get_or "method" JNull data) (JStr "receive").

End Transport.

(** ** choom_client.py: more of the client *)

Module Directory.
Import ChoomClient.

Definition content_event (s : string) : sse_line :=
  Data (JObj [("type", JStr "content"); ("content", JStr s)]).




(** The directory [fetch_chooms] builds from the records of the service. *)
Definition directory_of (data : list ChoomInfo) : gmap string ChoomInfo :=
  fold_left (fun m ch => <[Py.lower (name ch) := ch]> m) data ∅.

(** [check_health]: the answer of [POST /api/health], or the error dict
    when the request fails; [describe] is [str(e)]. *)
Definition check_health (describe : exn → string) (answer : result json) : json :=
  match answer with
  | Ok body => body
  | Raise e => JObj [("error", JStr (describe e)); ("services", JObj [])]
  end.

End Directory.

(** ** scheduler.py: the time-range condition *)

Module Conditions.

(** The time of day of a [datetime]. *)
Record datetime : Type := {
  hour : Z;
  minute : Z;
  second : Z;
  microsecond : Z;
}.

Definition valid_time (t : datetime) : Prop :=
  (0 <= hour t < 24 ∧ 0 <= minute t < 60 ∧ 0 <= second t < 60
   ∧ 0 <= microsecond t < 1000000)%Z.

(** Microseconds since midnight: the order of two datetimes of one day. *)
Definition ticks (t : datetime) : Z :=
  (((hour t * 60 + minute t) * 60 + second t) * 1000000 + microsecond t)%Z.

(** [now.replace(hour=h, minute=m, second=s)]: the fields are checked. *)
Definition replace (now : datetime) (h m s : Z) : result datetime :=
  if ((0 <=? h) && (h <? 24) && (0 <=? m) && (m <? 60))%Z
  then Ok {| hour := h; minute := m; second := s;
             microsecond := microsecond now |}
  else Raise ValueError.

(** [parts = x.split(":")], then [int(parts[0])], [int(parts[1])]; a
    missing part is an [IndexError], written [KeyError] here (both are
    lookup errors, and the caller treats every exception alike). *)
Definition hour_minute (x : json) : result (Z * Z) :=
  match x with
  | JStr s =>
      match Py.split_char ":" s with
      | a :: b :: _ =>
          match Py.int a, Py.int b with
          | Some h, Some m => Ok (h, m)
          | _, _ => Raise ValueError
          end
      | _ => Raise KeyError
      end
  | _ => Raise AttributeError
  end.

Definition time_range_body (condition : dict) (now : datetime) : result bool :=
  let after_str := get_or "after" (JStr "00:00") condition in
  let before_str := get_or "before" (JStr "23:59") condition in
  a ← hour_minute after_str;
  b ← hour_minute before_str;
  after_time ← replace now a.1 a.2 0;
  before_time ← replace now b.1 b.2 59;
  Ok (if (ticks after_time <=? ticks before_time)%Z
      then (ticks after_time <=? ticks now)%Z && (ticks now <=? ticks before_time)%Z
      else (ticks after_time <=? ticks now)%Z || (ticks now <=? ticks before_time)%Z).

(** [_eval_time_range_condition]: any exception gives [False]. *)
Definition _eval_time_range_condition (condition : dict) (now : datetime) : bool :=
  match time_range_body condition now with
  | Ok b => b
  | Raise _ => false
  end.


End Conditions.

(** ** scheduler.py: reloading the custom heartbeats *)

Module Heartbeats.

(** A registered job: a custom heartbeat with its interval in minutes and
    the arguments its closure keeps, or some other job. *)
Inductive job : Type :=
  | HeartbeatJob (minutes : Q) (choom_name prompt respect_quiet : json)
  | OtherJob (label : string).

(** [max(5, x)]. *)
Definition max5 (x : json) : result Q :=
  match num_of x with
  | Some q => Ok (if ChoomClient.Qltb 5 q then q else 5%Q)
  | None => Raise TypeError
  end.

(** The state of the first loop: the registry and [current_ids]. *)
Definition reload_state : Type := gmap string job * list string.

(** One round of the loop over [custom_tasks]. An id that is not a string
    is refused by the job store when the job is added. *)
Definition reload_task (task : json) (st : reload_state) : result reload_state :=
  let '(jobs, current_ids) := st in
  task_id ← py_get task "id" (JStr "");
  if negb (truthy task_id) then Ok st else
  match task_id with
  | JArr _ | JObj _ => Raise TypeError
  | _ =>
    let key := match task_id with JStr s => Some s | _ => None end in
    let current_ids := match key with Some s => s :: current_ids | None => current_ids end in
    enabled ← py_get task "enabled" (JBool false);
    if negb (truthy enabled) then
      Ok (match key with Some s => delete s jobs | None => jobs end, current_ids)
    else
      choom_name ← py_get task "choom_name" (JStr "");
      x ← py_get task "interval_minutes" (JInt 60);
      interval ← max5 x;
      prompt ← py_get task "prompt" (JStr "");
      respect_quiet ← py_get task "respect_quiet" (JBool true);
      if negb (truthy choom_name) || negb (truthy prompt) then Ok (jobs, current_ids)
      else match key with
           | None => Raise TypeError
           | Some s =>
               match jobs !! s with
               | Some _ => Ok (jobs, current_ids)
               | None =>
                   Ok (<[s := HeartbeatJob interval choom_name prompt respect_quiet]> jobs,
                       current_ids)
               end
           end
  end.

Fixpoint reload_tasks (tasks : list json) (st : reload_state) : result reload_state :=
  match tasks with
  | [] => Ok st
  | task :: tasks' =>
      st' ← reload_task task st;
      reload_tasks tasks' st'
  end.

Definition PREFIX : string := "custom_hb_".

(** The second loop: stale jobs are removed. *)
Definition remove_stale (st : reload_state) : gmap string job :=
  filter (fun kv => ¬ (Py.startswith PREFIX kv.1 = true ∧ kv.1 ∉ st.2)) st.1.

(** [_reload_custom_heartbeats]; [custom_tasks] is what
    [get_custom_heartbeats()] returned. *)
Definition _reload_custom_heartbeats (custom_tasks : json)
    (jobs : gmap string job) : result (gmap string job) :=
  tasks ← py_iter custom_tasks;
  st ← reload_tasks tasks (jobs, []);
  Ok (remove_stale st).

(** The string ids the file lists. *)
Definition listed (s : string) (tasks : list json) : Prop :=
  ∃ d, JObj d ∈ tasks ∧ table_get "id" d = Some (JStr s).

(** What one round does to the registry and to [current_ids]. [fresh s j]
    says that [j] is a heartbeat the round may add under [s]. *)
Definition fresh (tasks : list json) (s : string) (j : job) : Prop :=
  ∃ minutes choom_name prompt respect_quiet,
    j = HeartbeatJob minutes choom_name prompt respect_quiet
    ∧ (5 <= minutes)%Q ∧ listed s tasks.

Definition round_ok (tasks : list json) (st st' : reload_state) : Prop :=
  (∀ s, s ∈ st'.2 → s ∈ st.2 ∨ listed s tasks)
  ∧ (∀ s, s ∈ st.2 → s ∈ st'.2)
  ∧ (∀ s j, st'.1 !! s = Some j → st.1 !! s = Some j ∨ fresh tasks s j)
  ∧ (∀ s, ¬ listed s tasks → st'.1 !! s = st.1 !! s).

(** A registry with a built-in job and a heartbeat the file no longer
    lists, a file that lists one new heartbeat every two minutes, and the
    registry after the reload. *)
Definition demo_jobs : gmap string job :=
  <["system_health" := OtherJob "system_health"]>
    (<["custom_hb_old" := HeartbeatJob 10 (JStr "Genesis") (JStr "ping") (JBool true)]> ∅).

Definition demo_tasks : list json :=
  [ JObj [ ("id", JStr "custom_hb_tea"); ("enabled", JBool true);
           ("choom_name", JStr "Lissa"); ("interval_minutes", JInt 2);
           ("prompt", JStr "tea?") ] ].

Definition demo_after : gmap string job :=
  <["system_health" := OtherJob "system_health"]>
    (<["custom_hb_tea" := HeartbeatJob 5 (JStr "Lissa") (JStr "tea?") (JBool true)]> ∅).

End Heartbeats.

(** * Properties *)

(** ** List-name aliases *)

Module BridgeFacts.
Import Bridge.

Lemma alias_targets (key target : string) :
  table_get key LIST_ALIASES = Some target →
  target = "groceries" ∨ target = "hardware store" ∨ target = "to do".
Proof.
  unfold LIST_ALIASES. simpl.
  repeat (destruct (String.eqb key _); [intros [= <-]; auto |]).
  discriminate.
Qed.

(** C10. Resolving a list name twice gives what resolving it once gives,
    for every input string, and every target of the alias table resolves
    to itself. *)
Theorem resolve_list_name_idempotent :
  (∀ s : string, _resolve_list_name (_resolve_list_name s) = _resolve_list_name s)
  ∧ Forall (fun kt => _resolve_list_name (snd kt) = snd kt) LIST_ALIASES.
Proof.
  split.
  - intros s. unfold _resolve_list_name at 2 3.
    destruct (table_get (Py.lower s) LIST_ALIASES) as [t|] eqn:E.
    + apply alias_targets in E as [-> | [-> | ->]]; reflexivity.
    + unfold _resolve_list_name. by rewrite E.
  - repeat constructor.
Qed.

End BridgeFacts.

(** ** The user-activity map *)

Module ClientFacts.
Import ChoomClient.

Lemma Qltb_true (a b : Q) : (a < b)%Q → Qltb a b = true.
Proof.
  intros H. unfold Qltb. destruct (Qle_bool b a) eqn:E; [|done].
  apply Qle_bool_iff in E. lra.
Qed.

(** C9. Right after [record_user_activity(n)], [is_user_active(m, w)] holds
    at the same instant for every positive window [w] and every name [m]
    that lower-cases to what [n] lower-cases to. *)
Theorem user_activity_case_insensitive (n m : string) (w now : Q) (c : client) :
  Py.lower m = Py.lower n →
  (0 < w)%Q →
  is_user_active m w now (record_user_activity n now c) = true.
Proof.
  intros Hl Hw. unfold is_user_active, record_user_activity. simpl.
  rewrite Hl, lookup_insert_eq. simpl. apply Qltb_true. lra.
Qed.

Lemma user_activity_case_insensitive_witness :
  is_user_active "GENESIS" 120 1000 (record_user_activity "Genesis" 1000 new_client)
  = true.
Proof.
  apply (user_activity_case_insensitive "Genesis" "GENESIS" 120 1000 new_client).
  - reflexivity.
  - reflexivity.
Defined.

(** *** [send_message] and the map *)

Lemma keeps_ret {A : Type} (a : A) : keeps_activity (mret a).
Proof. intros w r w' [= _ <-]. done. Qed.

Lemma keeps_raise {A : Type} (e : exn) : keeps_activity (@raise A e).
Proof. intros w r w' [= _ <-]. done. Qed.

Lemma keeps_lift {A : Type} (x : result A) : keeps_activity (lift x).
Proof. intros w r w' [= _ <-]. done. Qed.

Lemma keeps_get_client : keeps_activity get_client.
Proof. intros w r w' [= _ <-]. done. Qed.

Lemma keeps_modify (g : client → client) :
  (∀ c, _last_user_activity (g c) = _last_user_activity c) →
  keeps_activity (modify_client g).
Proof. intros Hg w r w' [= _ <-]. simpl. apply Hg. Qed.

Lemma keeps_load_bridge_config : keeps_activity load_bridge_config.
Proof.
  intros w r w'. unfold load_bridge_config.
  destruct (TaskConfig.load_config _). intros [= _ <-]. done.
Qed.

Lemma keeps_bind {A B : Type} (m : M A) (f : A → M B) :
  keeps_activity m → (∀ a, keeps_activity (f a)) → keeps_activity (m ≫= f).
Proof.
  intros Hm Hf w r w'. unfold mbind, M_bind.
  destruct (m w) as [[a|e] w1] eqn:E; intros H.
  - rewrite (Hf _ _ _ _ H). eapply Hm, E.
  - injection H as _ <-. eapply Hm, E.
Qed.

Lemma keeps_try {A : Type} (m h : M A) :
  keeps_activity m → keeps_activity h → keeps_activity (try_except m h).
Proof.
  intros Hm Hh w r w'. unfold try_except.
  destruct (m w) as [[a|e] w1] eqn:E; intros H.
  - injection H as _ <-. eapply Hm, E.
  - rewrite (Hh _ _ _ H). eapply Hm, E.
Qed.

Create HintDb keeps.
#[local] Hint Resolve keeps_ret keeps_raise keeps_lift keeps_get_client
  keeps_load_bridge_config : keeps.

Ltac keeps :=
  repeat first
    [ apply keeps_bind; [| intros ?]
    | apply keeps_try
    | apply keeps_modify; intros ?; reflexivity
    | solve [auto with keeps]
    | match goal with |- keeps_activity (match ?x with _ => _ end) => destruct x end
    | match goal with |- keeps_activity (if ?x then _ else _) => destruct x end ].

Lemma keeps_fetch_chooms sv clk : keeps_activity (fetch_chooms sv clk).
Proof. unfold fetch_chooms. keeps. Qed.

Lemma keeps_get_choom_by_name sv clk n :
  keeps_activity (get_choom_by_name sv clk n).
Proof.
  unfold get_choom_by_name, _ensure_chooms_fresh.
  pose proof (keeps_fetch_chooms sv clk). keeps.
Qed.

Lemma keeps_get_or_create_chat sv i : keeps_activity (get_or_create_chat sv i).
Proof. unfold get_or_create_chat, create_chat. keeps. Qed.

(** [send_message] never writes the user-activity map, whatever the
    service answers and whether the call returns or raises. *)
Lemma send_message_keeps_activity sv k clk n msg settings fresh :
  keeps_activity (send_message sv k clk n msg settings fresh).
Proof.
  unfold send_message.
  pose proof (keeps_get_choom_by_name sv clk n).
  pose proof (keeps_get_or_create_chat sv).
  keeps.
Qed.

(** C3, as stated, fails: a call of [send_message] on a new client returns
    and leaves no timestamp for the companion, so none that is at least the
    clock reading taken before the call; and when the orchestrator has
    recorded the activity at time 1000 and the clock reads 1001 right
    before the call, the timestamp after the call is still 1000. *)
Lemma send_message_records_nothing :
  ¬ activity_recorded_by_send demo_server demo_constants demo_clock 1000
      "Genesis" "hello" fresh_world
  ∧ ¬ activity_recorded_by_send demo_server demo_constants demo_clock 1001
      "Genesis" "hello"
      {| cl := record_user_activity "Genesis" 1000 new_client;
         config_file := TaskConfig.Missing |}.
Proof.
  split; intros H.
  - destruct (H _ _ eq_refl) as (t & Ht & _).
    vm_compute in Ht. discriminate.
  - destruct (H _ _ eq_refl) as (t & Ht & Hle).
    vm_compute in Ht. injection Ht as <-.
    unfold Qle in Hle. simpl in Hle. lia.
Qed.

(** C3, amended. [send_message] leaves the user-activity map as it finds it;
    in the message path of the orchestrator, which calls
    [record_user_activity(name)] right before [send_message(name, ...)],
    the timestamp stored under [name.lower()] after the call is at least
    any clock reading [t_pre] taken before the recording one. *)
Theorem activity_recorded_by_orchestrator sv k clk (now t_pre : Q)
    (choom_name message : string) (w : world) r w' :
  (t_pre <= now)%Q →
  route_to_choom sv k clk now choom_name message w = (r, w') →
  _last_user_activity (cl w')
  = <[Py.lower choom_name := now]> (_last_user_activity (cl w))
  ∧ ∃ t, activity_of choom_name w' = Some t ∧ (t_pre <= t)%Q.
Proof.
  intros Hle Hrun. unfold route_to_choom in Hrun.
  apply send_message_keeps_activity in Hrun. simpl in Hrun.
  split; [done|]. exists now. split; [|done].
  unfold activity_of. rewrite Hrun. apply lookup_insert_eq.
Qed.

Lemma activity_recorded_by_orchestrator_witness :
  _last_user_activity
    (cl (snd (route_to_choom demo_server demo_constants demo_clock 1000
                "Genesis" "hello" fresh_world)))
  = <[Py.lower "Genesis" := 1000%Q]> (_last_user_activity (cl fresh_world))
  ∧ ∃ t, activity_of "Genesis"
           (snd (route_to_choom demo_server demo_constants demo_clock 1000
                   "Genesis" "hello" fresh_world)) = Some t
         ∧ (999 <= t)%Q.
Proof.
  apply (activity_recorded_by_orchestrator demo_server demo_constants
           demo_clock 1000 999 "Genesis" "hello" fresh_world
           (fst (route_to_choom demo_server demo_constants demo_clock 1000
                   "Genesis" "hello" fresh_world))).
  - unfold Qle. simpl. lia.
  - apply surjective_pairing.
Defined.

End ClientFacts.

(** ** Dictionaries *)

Module DictFacts.

Lemma json_nested_ind (P : json → Prop) :
  P JNull → (∀ b, P (JBool b)) → (∀ z, P (JInt z)) → (∀ q, P (JFloat q)) →
  (∀ s, P (JStr s)) →
  (∀ l, Forall P l → P (JArr l)) →
  (∀ d, Forall (fun kv => P (snd kv)) d → P (JObj d)) →
  ∀ x, P x.
Proof.
  intros Hn Hb Hi Hf Hs Ha Ho.
  fix IH 1. intros [ | b | z | q | s | l | d].
  - exact Hn.
  - apply Hb.
  - apply Hi.
  - apply Hf.
  - apply Hs.
  - apply Ha. induction l as [|x l IHl]; constructor; [apply IH | exact IHl].
  - apply Ho. induction d as [|[k v] d IHd]; constructor; [apply IH | exact IHd].
Qed.

Lemma table_get_In {V : Type} (k : string) (v : V) (t : list (string * V)) :
  table_get k t = Some v → In (k, v) t.
Proof.
  induction t as [|[k' v'] t IH]; simpl; [done|].
  destruct (String.eqb_spec k k') as [->|Hne].
  - intros [= ->]. by left.
  - intros H. right. by apply IH.
Qed.

Lemma table_get_None {V : Type} (k : string) (t : list (string * V)) :
  table_get k t = None ↔ ¬ In k (map fst t).
Proof.
  induction t as [|[k' v'] t IH]; simpl; [tauto|].
  destruct (String.eqb_spec k k') as [->|Hne].
  - split; [done|]. intros H. destruct H. by left.
  - rewrite IH. split; [|tauto]. intros H [?|?]; [congruence|tauto].
Qed.

Lemma table_get_is_Some {V : Type} (k : string) (t : list (string * V)) :
  In k (map fst t) → ∃ v, table_get k t = Some v.
Proof.
  intros Hin. destruct (table_get k t) as [v|] eqn:E; [by exists v|].
  by apply table_get_None in E.
Qed.

Lemma In_table_get {V : Type} (k : string) (v : V) (t : list (string * V)) :
  NoDup (map fst t) → In (k, v) t → table_get k t = Some v.
Proof.
  induction t as [|[k' v'] t IH]; simpl; [done|].
  intros Hnd [Heq|Hin].
  - injection Heq as -> ->. by rewrite String.eqb_refl.
  - apply NoDup_cons in Hnd as [Hk' Hnd].
    destruct (String.eqb_spec k k') as [->|Hne]; [|by apply IH].
    destruct Hk'. apply list_elem_of_In, in_map_iff. by exists (k', v).
Qed.

Lemma table_get_set_eq (k : string) (v : json) (d : dict) :
  table_get k (dict_set k v d) = Some v.
Proof.
  induction d as [|[k' v'] d IH]; simpl.
  - by rewrite String.eqb_refl.
  - destruct (String.eqb_spec k k') as [->|Hne]; simpl.
    + by rewrite String.eqb_refl.
    + destruct (String.eqb_spec k k'); [done|apply IH].
Qed.

Lemma table_get_set_ne (k k' : string) (v : json) (d : dict) :
  k ≠ k' → table_get k' (dict_set k v d) = table_get k' d.
Proof.
  intros Hne. induction d as [|[k0 v0] d IH]; simpl.
  - destruct (String.eqb_spec k' k); congruence.
  - destruct (String.eqb_spec k k0) as [->|Hne0]; simpl.
    + destruct (String.eqb_spec k' k0); congruence.
    + destruct (String.eqb_spec k' k0); [done|apply IH].
Qed.

Lemma keys_set_In (k x : string) (v : json) (d : dict) :
  In x (keys (dict_set k v d)) ↔ x = k ∨ In x (keys d).
Proof.
  unfold keys. induction d as [|[k0 v0] d IH]; simpl.
  - intuition.
  - destruct (String.eqb_spec k k0) as [->|Hne]; simpl.
    + intuition.
    + rewrite IH. intuition.
Qed.

Lemma keys_set_NoDup (k : string) (v : json) (d : dict) :
  NoDup (keys d) → NoDup (keys (dict_set k v d)).
Proof.
  unfold keys. induction d as [|[k0 v0] d IH]; simpl.
  - intros _. apply NoDup_singleton.
  - intros [Hk0 Hnd]%NoDup_cons.
    destruct (String.eqb_spec k k0) as [->|Hne]; simpl.
    + by apply NoDup_cons.
    + apply NoDup_cons. split; [|by apply IH].
      rewrite list_elem_of_In. intros [->|Hin]%(keys_set_In k k0 v d); [done|].
      by apply Hk0, list_elem_of_In.
Qed.

(** Equality of values is reflexive on well-formed values. *)
Lemma py_eqb_obj (xs ys : dict) :
  py_eqb (JObj xs) (JObj ys) =
  (length xs =? length ys)%nat
  && forallb (fun kv => match table_get (fst kv) ys with
                        | Some w => py_eqb (snd kv) w
                        | None => false
                        end) xs.
Proof. reflexivity. Qed.

Lemma wf_json_obj (d : dict) :
  wf_json (JObj d) = true ↔
  NoDup (keys d) ∧ ∀ kv, In kv d → wf_json (snd kv) = true.
Proof.
  simpl. rewrite andb_true_iff, forallb_forall, bool_decide_eq_true. done.
Qed.

Lemma py_eqb_refl (x : json) : wf_json x = true → py_eqb x x = true.
Proof.
  induction x as [ | b | z | q | s | l IH | d IH] using json_nested_ind;
    intros Hwf.
  - done.
  - simpl. by apply Qeq_bool_iff.
  - simpl. by apply Qeq_bool_iff.
  - simpl. by apply Qeq_bool_iff.
  - simpl. apply String.eqb_refl.
  - simpl in Hwf. induction l as [|x l IHl]; [done|].
    simpl in Hwf. apply andb_true_iff in Hwf as [Hx Hl].
    apply Forall_cons in IH as [IHx IHl'].
    change (py_eqb x x && py_eqb (JArr l) (JArr l) = true).
    rewrite IHx by done. simpl. by apply IHl.
  - apply wf_json_obj in Hwf as [Hnd Hvals].
    rewrite py_eqb_obj, Nat.eqb_refl. simpl.
    apply forallb_forall. intros [k v] Hin. simpl.
    rewrite (In_table_get k v d Hnd Hin).
    rewrite Forall_forall in IH. apply (IH (k, v)).
    + by apply list_elem_of_In.
    + by apply (Hvals (k, v)).
Qed.

End DictFacts.

(** ** The configuration store *)

Module ConfigFacts.
Import TaskConfig DictFacts.

Lemma _deep_merge_fold (base override : dict) :
  _deep_merge base override = fold_left merge_step override base.
Proof.
  unfold _deep_merge. simpl.
  revert base. induction override as [|[k v] o IH]; intros base; [done|].
  simpl. rewrite IH. f_equal.
  unfold merge_step, merged. simpl.
  destruct (table_get k base) as [[]|]; destruct v; reflexivity.
Qed.

Lemma fold_get (k : string) (o result : dict) :
  NoDup (keys o) →
  table_get k (fold_left merge_step o result) =
  match table_get k o with
  | Some v => Some (merged (table_get k result) v)
  | None => table_get k result
  end.
Proof.
  revert result. induction o as [|[k0 v0] o IH]; intros result Hnd; [done|].
  unfold keys in Hnd. simpl in Hnd. apply NoDup_cons in Hnd as [Hk0 Hnd].
  simpl. rewrite (IH _ Hnd). unfold merge_step. simpl.
  destruct (String.eqb_spec k k0) as [->|Hne].
  - assert (table_get k0 o = None) as ->
      by (apply table_get_None; by rewrite <- list_elem_of_In).
    apply table_get_set_eq.
  - by rewrite !(table_get_set_ne k0 k) by done.
Qed.

Lemma fold_keys (x : string) (o result : dict) :
  In x (keys (fold_left merge_step o result)) ↔ In x (keys result) ∨ In x (keys o).
Proof.
  revert result. induction o as [|[k0 v0] o IH]; intros result; simpl.
  - tauto.
  - rewrite IH. unfold merge_step. rewrite keys_set_In. simpl.
    intuition congruence.
Qed.

Lemma fold_NoDup (o result : dict) :
  NoDup (keys result) → NoDup (keys (fold_left merge_step o result)).
Proof.
  revert result. induction o as [|[k0 v0] o IH]; intros result Hnd; [done|].
  simpl. apply IH. by apply keys_set_NoDup.
Qed.

Lemma covers_obj (bs ds : dict) :
  covers (JObj bs) (JObj ds) = true ↔
  ∀ k b, In (k, b) bs → ∃ dv, table_get k ds = Some dv ∧ covers b dv = true.
Proof.
  simpl. rewrite forallb_forall. split.
  - intros H k b Hin. specialize (H (k, b) Hin). simpl in H.
    destruct (table_get k ds) as [dv|]; [|done]. by exists dv.
  - intros H [k b] Hin. simpl. by destruct (H k b Hin) as (dv & -> & ?).
Qed.

(** Merging a document over a base it covers gives the document back, up
    to the order of keys. *)
Lemma merge_covered (d : json) :
  ∀ base, wf_json d = true → wf_json base = true → covers base d = true →
          py_eqb (merged (Some base) d) d = true.
Proof.
  induction d as [ | b | z | q | s | l IH | o IH] using json_nested_ind;
    intros base Hwd Hwb Hcov;
    try (destruct base; unfold merged; by apply py_eqb_refl).
  destruct base as [ | | | | | | rb]; try (unfold merged; by apply py_eqb_refl).
  unfold merged. rewrite _deep_merge_fold.
  apply wf_json_obj in Hwd as [Hnd_o Hwf_o].
  apply wf_json_obj in Hwb as [Hnd_b Hwf_b].
  rewrite covers_obj in Hcov.
  assert (Hsub : ∀ x, In x (keys rb) → In x (keys o)).
  { intros x (kv & <- & Hin)%in_map_iff. destruct kv as [k b].
    destruct (Hcov k b Hin) as (dv & Hdv & _).
    apply table_get_In in Hdv. apply in_map_iff. by exists (k, dv). }
  set (R := fold_left merge_step o rb).
  assert (HndR : NoDup (keys R)) by by apply fold_NoDup.
  rewrite py_eqb_obj. apply andb_true_iff. split.
  - apply Nat.eqb_eq.
    rewrite <- (length_map fst R), <- (length_map fst o).
    apply Permutation_length, NoDup_Permutation; [done..|].
    intros x. rewrite !list_elem_of_In. unfold R.
    fold (keys (fold_left merge_step o rb)). rewrite fold_keys.
    fold (keys o). specialize (Hsub x). tauto.
  - apply forallb_forall. intros [k v] Hin. simpl.
    assert (In k (keys o)) as Hko.
    { assert (In k (keys R)) as HkR by (apply in_map_iff; by exists (k, v)).
      apply fold_keys in HkR as [?|?]; auto. }
    destruct (table_get_is_Some k o Hko) as [w Hw]. rewrite Hw.
    pose proof (In_table_get k v R HndR Hin) as Hv.
    unfold R in Hv. rewrite (fold_get k o rb Hnd_o), Hw in Hv.
    injection Hv as <-.
    pose proof (table_get_In _ _ _ Hw) as Hwin.
    rewrite Forall_forall in IH.
    assert (Hww : wf_json w = true) by apply (Hwf_o (k, w) Hwin).
    destruct (table_get k rb) as [b|] eqn:Hb.
    + apply table_get_In in Hb.
      destruct (Hcov k b Hb) as (dv & Hdv & Hc).
      assert (dv = w) as -> by congruence.
      apply (IH (k, w)); [by apply list_elem_of_In|done| |done].
      apply (Hwf_b (k, b) Hb).
    + simpl. by apply py_eqb_refl.
Qed.

(** The law of the merge, whatever the defaults are. *)
Lemma deep_merge_covered (base d : dict) :
  wf_json (JObj d) = true → wf_json (JObj base) = true →
  covers (JObj base) (JObj d) = true →
  py_eqb (JObj (_deep_merge base d)) (JObj d) = true.
Proof. apply (merge_covered (JObj d) (JObj base)). Qed.

Lemma DEFAULT_CONFIG_wf : wf_json (JObj DEFAULT_CONFIG) = true.
Proof. vm_compute. reflexivity. Qed.

(** C6. For every configuration document whose keys cover those of the
    defaults at every level where the defaults hold a dict, [load_config()]
    after [save_config(d)] returns a document equal to [d]. *)
Theorem load_after_save (d : dict) (f : file) :
  wf_json (JObj d) = true →
  covers (JObj DEFAULT_CONFIG) (JObj d) = true →
  py_eqb (JObj (fst (load_config (snd (save_config d f))))) (JObj d) = true.
Proof.
  intros Hwf Hcov. simpl.
  apply deep_merge_covered; [done| apply DEFAULT_CONFIG_wf |done].
Qed.

Lemma load_after_save_witness :
  py_eqb (JObj (fst (load_config (snd (save_config sample_document Missing)))))
         (JObj sample_document) = true.
Proof.
  apply (load_after_save sample_document Missing).
  - vm_compute. reflexivity.
  - vm_compute. reflexivity.
Defined.

(** The document read back lists its keys in the order of the defaults, so
    it is equal to the one written but not identical to it. *)
Example load_after_save_reorders :
  keys (fst (load_config (snd (save_config sample_document Missing))))
  = ["tasks"; "yt_downloader"; "heartbeat"; "reminders"]
  ∧ keys sample_document = ["reminders"; "heartbeat"; "yt_downloader"; "tasks"].
Proof. split; reflexivity. Qed.

End ConfigFacts.

(** ** Strings *)

Module StringFacts.
Import Py.

Section Strip.
Variable p : ascii → bool.

Lemma lstrip_head_ok (s : string) : head_ok p (lstrip_by p s).
Proof.
  induction s as [|c s IH]; simpl; [done|].
  destruct (p c) eqn:E; [done|]. exact E.
Qed.

Lemma lstrip_fixed (s : string) : head_ok p s → lstrip_by p s = s.
Proof. destruct s as [|c s]; simpl; [done|]. by intros ->. Qed.

Lemma rstrip_head_ok (s : string) : head_ok p s → head_ok p (rstrip_by p s).
Proof.
  destruct s as [|c s]; simpl; [done|]. intros Hc.
  destruct (rstrip_by p s); [by rewrite Hc|done].
Qed.

Lemma rstrip_idem (s : string) : rstrip_by p (rstrip_by p s) = rstrip_by p s.
Proof.
  induction s as [|c s IH]; simpl; [done|].
  destruct (rstrip_by p s) as [|c' r] eqn:E.
  - destruct (p c) eqn:Hc; simpl; [done|]. by rewrite Hc.
  - simpl in *. by rewrite IH.
Qed.

Lemma strip_idem (s : string) : strip_by p (strip_by p s) = strip_by p s.
Proof.
  unfold strip_by.
  rewrite (lstrip_fixed (rstrip_by p (lstrip_by p s))).
  - apply rstrip_idem.
  - apply rstrip_head_ok, lstrip_head_ok.
Qed.

Lemma strip_rstrip_fixed (s : string) :
  rstrip_by p (strip_by p s) = strip_by p s.
Proof. apply rstrip_idem. Qed.

Lemma suffix_lstrip (s : string) : suffix (lstrip_by p s) s.
Proof.
  induction s as [|c s IH]; simpl; [constructor|].
  destruct (p c); by constructor.
Qed.

(** A non-empty suffix of a string without trailing [p]-characters has
    none either. *)
Lemma rstrip_suffix (t s : string) :
  suffix t s → t ≠ EmptyString → rstrip_by p s = s → rstrip_by p t = t.
Proof.
  induction 1 as [|c s Hsuf IH]; intros Hne Hs; [done|].
  apply IH; [done|]. simpl in Hs.
  destruct (rstrip_by p s) as [|c' r] eqn:E.
  - assert (s = EmptyString) as -> by (destruct (p c); congruence).
    inversion Hsuf; congruence.
  - congruence.
Qed.

End Strip.

Lemma suffix_trans (a b c : string) : suffix a b → suffix b c → suffix a c.
Proof. intros Hab Hbc. induction Hbc; [done|]. by constructor. Qed.

Lemma suffix_span_word (s : string) : suffix (snd (span_word s)) s.
Proof.
  induction s as [|c s IH]; simpl; [constructor|].
  destruct (isspace c); [constructor|].
  destruct (span_word s) as [w r]. simpl in *. by constructor.
Qed.

(** The rest [s.split(None, 1)] returns starts with a non-space character
    and is a suffix of [s]. *)
Lemma split_ws_1_rest (s first rest : string) (more : list string) :
  split_ws_1 s = first :: rest :: more →
  head_ok isspace rest ∧ rest ≠ EmptyString ∧ suffix rest s.
Proof.
  unfold split_ws_1.
  pose proof (suffix_lstrip isspace s) as H1.
  destruct (lstrip_by isspace s) as [|c t] eqn:Et; [done|].
  pose proof (suffix_span_word (String c t)) as H2.
  destruct (span_word (String c t)) as [w r]. simpl in H2.
  pose proof (suffix_lstrip isspace r) as H3.
  pose proof (lstrip_head_ok isspace r) as H4.
  destruct (lstrip_by isspace r) as [|c' r'] eqn:Er; [done|].
  intros [= _ <- _]. repeat split; [done|done|].
  eauto using suffix_trans.
Qed.

End StringFacts.

(** ** The envelope parser *)

Module ParserFacts.
Import MessageParser.

Lemma parse_attachments_shaped (l : list json) :
  forallb shaped_attachment l = true → ∃ r, parse_attachments l = Ok r.
Proof.
  induction l as [|a l IH]; simpl; [by eexists|].
  intros [Ha Hl]%andb_true_iff. destruct (IH Hl) as [r Hr]. rewrite Hr.
  destruct a as [ | | | | | |d]; try done. unfold parse_attachment. simpl.
  unfold shaped_attachment in Ha. unfold get_or.
  destruct (table_get "contentType" d) as [[]|]; try done;
    destruct (truthy _); simpl; by eexists.
Qed.

Lemma parse_quote_shaped (d : dict) :
  match table_get "quote" d with
  | None | Some (JObj _) => true
  | Some _ => false
  end = true →
  ∃ q, parse_quote (JObj d) = Ok q.
Proof.
  unfold parse_quote. simpl. unfold has_key.
  destruct (table_get "quote" d) as [[]|]; try done; intros _; simpl;
    by eexists.
Qed.

(** The parser on an envelope whose selected payload is [data]. *)
Lemma parse_selected (envelope : dict) (data : json) :
  select_data envelope = Ok data →
  shaped_payload data = true →
  ∃ r, parse_envelope envelope = Ok r
       ∧ (r = None ↔ truthy (envelope_source envelope) = false
                     ∨ has_content (Some data) = false).
Proof.
  intros Hsel Hshape. unfold parse_envelope. rewrite Hsel. simpl.
  destruct data as [ | | | | | |d]; try done.
  { eexists. split; [done|]. split; [by right|done]. }
  destruct (truthy (JObj d)) eqn:Hd; simpl.
  2:{ eexists. split; [done|]. split; [|done]. intros _. right.
      destruct d; done. }
  destruct (truthy (envelope_source envelope)) eqn:Hsrc; simpl.
  2:{ eexists. split; [done|]. split; [by left|done]. }
  unfold has_content. simpl.
  destruct (truthy (get_or "message" (JStr "") d)) eqn:Hm;
    destruct (truthy (get_or "attachments" JNull d)) eqn:Ha; simpl.
  4:{ eexists. split; [done|]. split; [by right|done]. }
  all: apply andb_true_iff in Hshape as [Hatts Hq];
    destruct (parse_quote_shaped d Hq) as [q ->];
    unfold get_or at 3;
    destruct (table_get "attachments" d) as [[ | | | | |l| ]|]; try done; simpl.
  all: try (destruct (parse_attachments_shaped l Hatts) as [r ->]; simpl).
  all: eexists; (split; [done|]); split; [done|intros [|]; done].
Qed.

(** On a shaped envelope the parser selects the payload. *)
Lemma select_shaped (envelope : dict) :
  shaped envelope = true →
  select_data envelope = Ok (default JNull (payload envelope))
  ∧ shaped_payload (default JNull (payload envelope)) = true.
Proof.
  unfold shaped, select_data, payload, sync_sent.
  destruct (table_get "dataMessage" envelope) as [data|]; [done|].
  destruct (table_get "syncMessage" envelope) as [[ | | | | | |sync]|];
    try done. simpl. unfold has_key.
  destruct (table_get "sentMessage" sync) as [data|]; done.
Qed.

Lemma has_content_default (x : option json) :
  has_content (Some (default JNull x)) = has_content x.
Proof. by destruct x. Qed.

(** C4, as stated, fails in both directions of what it promises: a
    sync-sent message without content gives no intake although the envelope
    carries a sync-sent message, and a data message with text but no sender
    gives no intake although it carries text. *)
Lemma no_intake_for_carried_messages :
  ¬ no_intake_iff_nothing_carried empty_sync_envelope
  ∧ ¬ no_intake_iff_nothing_carried anonymous_envelope.
Proof.
  split; intros [H _]; specialize (H eq_refl);
    vm_compute in H; destruct H as (? & ? & ?); discriminate.
Qed.

(** C4, amended. On an envelope of the transport's shape the parser always
    answers, and it answers no intake exactly when the envelope names no
    sender ([source] or [sourceNumber]) or its payload, [dataMessage] when
    that key is present and [syncMessage.sentMessage] otherwise, has
    neither message text nor attachments. *)
Theorem parse_envelope_no_intake_iff (envelope : dict) :
  shaped envelope = true →
  ∃ r, parse_envelope envelope = Ok r
       ∧ (r = None ↔ truthy (envelope_source envelope) = false
                     ∨ has_content (payload envelope) = false).
Proof.
  intros [Hsel Hshape]%select_shaped.
  rewrite <- has_content_default. by apply parse_selected.
Qed.

Lemma parse_envelope_no_intake_iff_witness :
  ∃ r, parse_envelope voice_note_envelope = Ok r
       ∧ (r = None ↔ truthy (envelope_source voice_note_envelope) = false
                     ∨ has_content (payload voice_note_envelope) = false).
Proof.
  apply (parse_envelope_no_intake_iff voice_note_envelope).
  reflexivity.
Defined.

Example voice_note_is_taken_in :
  ∃ r, parse_envelope voice_note_envelope = Ok (Some r)
       ∧ source r = JStr "+15550100" ∧ is_voice_note r = true.
Proof. eexists. split; [reflexivity|]. split; reflexivity. Qed.

End ParserFacts.

(** ** The intent resolver *)

Module ResolverFacts.
Import MessageParser StringFacts.

Lemma strip_strip (s : string) : Py.strip (Py.strip s) = Py.strip s.
Proof. apply strip_idem. Qed.

(** When no name is extracted the message comes back stripped. *)
Lemma extract_none (x : string) :
  fst (extract_choom_name x) = None →
  extract_choom_name x = (None, Py.strip x).
Proof.
  unfold extract_choom_name.
  destruct (by_separator ":" _) as [[? ?]|]; [done|].
  destruct (by_separator "," _) as [[? ?]|]; [done|].
  destruct (by_at_sign _) as [[? ?]|]; [done|].
  destruct (scan_words 5 _) as [[? ?]|]; done.
Qed.

Lemma by_separator_stripped sep msg name cleaned :
  by_separator sep msg = Some (name, cleaned) → Py.strip cleaned = cleaned.
Proof.
  unfold by_separator.
  destruct (Py.split_once sep msg) as [[a b]|]; [|done].
  destruct (_match_choom_name _); [|done].
  intros [= _ <-]. apply strip_strip.
Qed.

Lemma scan_words_stripped n ws name cleaned :
  scan_words n ws = Some (name, cleaned) → Py.strip cleaned = cleaned.
Proof.
  revert ws. induction n as [|n IH]; intros [|w ws]; simpl; try done.
  destruct (_match_choom_name _).
  - intros [= _ <-]. apply strip_strip.
  - destruct (is_skip_word _); [apply IH|done].
Qed.

Lemma by_at_sign_stripped msg name cleaned :
  Py.strip msg = msg →
  by_at_sign msg = Some (name, cleaned) → Py.strip cleaned = cleaned.
Proof.
  intros Hmsg. unfold by_at_sign.
  destruct msg as [|c rest]; cbn [Py.startswith_char Py.tail]; [done|].
  destruct (Ascii.eqb "@" c); [|done].
  destruct (Py.split_ws_1 rest) as [|first [|r more]] eqn:Es; [done| |].
  - destruct (_match_choom_name _); [|done]. by intros [= _ <-].
  - destruct (_match_choom_name _); [|done]. intros [= _ <-].
    apply split_ws_1_rest in Es as (Hhead & Hne & Hsuf).
    unfold Py.strip, Py.strip_by. rewrite lstrip_fixed by done.
    apply (rstrip_suffix Py.isspace r (String c rest)); [by constructor|done|].
    rewrite <- Hmsg. apply strip_rstrip_fixed.
Qed.

(** Every cleaned message the resolver returns with a name is stripped. *)
Lemma extract_cleaned_stripped (message name cleaned : string) :
  extract_choom_name message = (Some name, cleaned) →
  Py.strip cleaned = cleaned.
Proof.
  unfold extract_choom_name.
  destruct (by_separator ":" _) as [[n c]|] eqn:E1.
  { intros [= _ <-]. eapply by_separator_stripped, E1. }
  destruct (by_separator "," _) as [[n c]|] eqn:E2.
  { intros [= _ <-]. eapply by_separator_stripped, E2. }
  destruct (by_at_sign _) as [[n c]|] eqn:E3.
  { intros [= _ <-]. eapply by_at_sign_stripped, E3. apply strip_strip. }
  destruct (scan_words 5 _) as [[n c]|] eqn:E4; [|done].
  intros [= _ <-]. eapply scan_words_stripped, E4.
Qed.

(** C5, as stated, fails: the cleaned tail of a message may itself start
    with a name, which a second pass extracts. *)
Lemma resolver_not_idempotent :
  ¬ resolver_idempotent_at "Genesis: Lissa, tell me a joke".
Proof.
  intros H. specialize (H "Genesis" "Lissa, tell me a joke" eq_refl).
  vm_compute in H. discriminate.
Qed.

(** C5, amended. When the resolver returns a name and a cleaned tail, and a
    second pass finds no name at the start of that tail, the second pass
    returns the tail unchanged. *)
Theorem resolver_stable_on_tail (message name cleaned : string) :
  extract_choom_name message = (Some name, cleaned) →
  fst (extract_choom_name cleaned) = None →
  extract_choom_name cleaned = (None, cleaned).
Proof.
  intros Hfirst Hnone.
  rewrite (extract_none cleaned Hnone).
  by rewrite (extract_cleaned_stripped message name cleaned Hfirst).
Qed.

Lemma resolver_stable_on_tail_witness :
  extract_choom_name "what are you doing" = (None, "what are you doing").
Proof.
  apply (resolver_stable_on_tail "Hey Lissa what are you doing" "Lissa"
           "what are you doing").
  - reflexivity.
  - reflexivity.
Defined.

End ResolverFacts.

(** ** The quiet period *)

Module QuietFacts.
Import TaskConfig.

(** Reading the configuration again gives the same document. *)
Lemma load_config_again (f : file) :
  fst (load_config (snd (load_config f))) = fst (load_config f).
Proof. destruct f as [| |[]]; reflexivity. Qed.

Lemma load_config_settles (f : file) :
  snd (load_config (snd (load_config f))) = snd (load_config f).
Proof. destruct f as [| |[]]; reflexivity. Qed.

(** C7. For an overnight quiet range, whose start minute of the day is
    greater than its end minute, [is_quiet_period] at minute [m] of the day
    answers true exactly when [m >= start] or [m < end]. *)
Theorem is_quiet_period_overnight (f : file) (hour minute s e : Z) :
  quiet_bounds (fst (load_config f)) = Ok (s, e) →
  (s > e)%Z →
  ∃ q, fst (is_quiet_period f hour minute) = Ok q
       ∧ (q = true ↔ (hour * 60 + minute >= s ∨ hour * 60 + minute < e)%Z).
Proof.
  intros Hb Hov. unfold is_quiet_period.
  destruct (load_config f) as [config f'] eqn:Hl. simpl in *.
  rewrite Hb. simpl.
  destruct (Z.leb_spec s e) as [Hle|_]; [lia|].
  eexists. split; [reflexivity|].
  rewrite orb_true_iff, Z.leb_le, Z.ltb_lt. lia.
Qed.

Lemma is_quiet_period_overnight_witness :
  ∃ q, fst (is_quiet_period Missing 23 30) = Ok q
       ∧ (q = true ↔ (23 * 60 + 30 >= 21 * 60 + 0 ∨ 23 * 60 + 30 < 6 * 60 + 0)%Z).
Proof.
  apply (is_quiet_period_overnight Missing 23 30 (21 * 60 + 0) (6 * 60 + 0)).
  - reflexivity.
  - reflexivity.
Defined.

(** The minutes of a day under the default range 21:00 to 06:00: quiet from
    21:00 on and before 06:00, on both sides of midnight. *)
Example default_range_both_sides_of_midnight :
  fst (is_quiet_period Missing 23 0) = Ok true
  ∧ fst (is_quiet_period Missing 0 0) = Ok true
  ∧ fst (is_quiet_period Missing 5 59) = Ok true
  ∧ fst (is_quiet_period Missing 6 0) = Ok false
  ∧ fst (is_quiet_period Missing 20 59) = Ok false
  ∧ fst (is_quiet_period Missing 21 0) = Ok true.
Proof. repeat split. Qed.

End QuietFacts.

(** ** The weather condition *)

Module WeatherFacts.
Import Scheduler.

(** A body without a ["current"] member never satisfies a weather
    condition: the field is looked up in an empty dict. *)
Lemma weather_condition_needs_current float_of_str (condition body : dict) :
  table_get "current" body = None →
  _eval_weather_condition float_of_str condition (Ok (JObj body)) = false.
Proof.
  intros H.
  assert (get_or "current" (JObj []) body = JObj []) as Hcur
    by (unfold get_or; by rewrite H).
  unfold _eval_weather_condition, weather_condition_body. simpl.
  rewrite Hcur.
  destruct (get_or "field" _ condition); reflexivity.
Qed.

(** C1 fails on the code. The condition [temperature < 40], evaluated
    against a body of the documented shape that reports 38 degrees, is
    false although 38 is less than 40; and so is every condition on each
    of the three fields, whatever the body of that shape reports. *)
Theorem weather_condition_reads_wrong_member float_of_str :
  holds Lt (body_field temperature 38 5 50) 40 = true
  ∧ _eval_weather_condition float_of_str
      (weather_condition temperature Lt 40) (Ok (weather_body 38 5 50)) = false
  ∧ ∀ fld o value temp wind hum,
      _eval_weather_condition float_of_str
        (weather_condition fld o value) (Ok (weather_body temp wind hum)) = false.
Proof.
  split; [reflexivity|]. split.
  - by apply weather_condition_needs_current.
  - intros. by apply weather_condition_needs_current.
Qed.

(** Had the body its fields under ["current"], the comparison would be the
    one the condition asks for. *)
Example weather_condition_on_current float_of_str :
  _eval_weather_condition float_of_str (weather_condition temperature Lt 40)
    (Ok (JObj [("current", JObj [("temperature", JInt 38)])])) = true
  ∧ _eval_weather_condition float_of_str (weather_condition temperature Lt 40)
    (Ok (JObj [("current", JObj [("temperature", JInt 41)])])) = false.
Proof. split; reflexivity. Qed.

End WeatherFacts.

(** ** Disconnecting with requests in flight *)

Module TransportFacts.
Import SignalHandler.

(** [disconnect] sets the stop flag, drops the socket and empties both
    tables. *)
Lemma disconnect_flags (h : handler) :
  _stop_event (disconnect h) = true
  ∧ _connected (disconnect h) = false
  ∧ _sock (disconnect h) = false
  ∧ _pending_requests (disconnect h) = ∅
  ∧ _responses (disconnect h) = ∅.
Proof. done. Qed.

Lemma set_events_length (addrs : list nat) (evs : list bool) :
  length (set_events addrs evs) = length evs.
Proof.
  induction addrs as [|a addrs IH]; simpl; [done|].
  by rewrite length_insert.
Qed.

Lemma set_events_lookup (addrs : list nat) (evs : list bool) (a : nat) :
  a ∈ addrs → a < length evs → set_events addrs evs !! a = Some true.
Proof.
  intros Hin Hlt. induction addrs as [|b addrs IH]; simpl.
  - by apply elem_of_nil in Hin.
  - destruct (decide (b = a)) as [->|Hne].
    + apply list_lookup_insert_eq. by rewrite set_events_length.
    + rewrite list_lookup_insert_ne by done.
      apply IH. apply elem_of_cons in Hin as [->|]; done.
Qed.

(** [disconnect] wakes every registered waiter: its event is set. *)
Lemma disconnect_wakes (h : handler) (req_id : Z) (ev : nat) :
  _pending_requests h !! req_id = Some ev →
  ev < length (events h) →
  is_set ev (disconnect h) = true.
Proof.
  intros Hp Hlt. unfold is_set, disconnect. simpl.
  rewrite set_events_lookup; [done| |done].
  apply list_elem_of_fmap. exists (req_id, ev). split; [done|].
  by apply elem_of_map_to_list.
Qed.

(** A waiter released by [disconnect] returns the empty dict. *)
Lemma released_waiter_returns_empty (h : handler) (req_id : Z) (ev : nat) :
  _pending_requests h !! req_id = Some ev →
  ev < length (events h) →
  fst (send_request_finish req_id ev (disconnect h)) = Ok [].
Proof.
  intros Hp Hlt. unfold send_request_finish.
  rewrite (disconnect_wakes h req_id ev Hp Hlt). simpl.
  by rewrite lookup_empty.
Qed.

(** C2 fails on the code. A request is sent on a connected handler and its
    caller blocks; [disconnect] runs before any response arrives. The stop
    flag is set, the socket is gone and the waiter's event is set, but the
    blocked [_send_request] then returns the empty dict, an ordinary
    result, and [send_message] reports success. *)
Theorem disconnect_releases_waiter_without_error :
  let params := JObj [("recipient", JArr [JStr "+15550100"]);
                      ("message", JStr "hello")] in
  let started := send_request_begin "send" params true connected_handler in
  let h := disconnect (snd started) in
  fst started = Ok (1%Z, 0)
  ∧ _pending_requests (snd started) !! 1%Z = Some 0
  ∧ is_set 0 (snd started) = false
  ∧ _stop_event h = true ∧ _sock h = false ∧ is_set 0 h = true
  ∧ fst (send_request_finish 1 0 h) = Ok []
  ∧ fst (send_message_finish 1 0 h) = true.
Proof. vm_compute. repeat split. Qed.

End TransportFacts.

(** ** The health check *)

Module HealthFacts.
Import TaskConfig Scheduler.

Section WithStr.
Variable str_of : json → string.

Lemma collect_issues_from (services : dict) (issues : list string) :
  fold_left
    (fun issues kv =>
       match snd kv with
       | JObj service_info =>
           let status := get_or "status" (JStr "unknown") service_info in
           if negb (py_eqb status (JStr "connected"))
           then issues ++ ["- " +:+ fst kv +:+ ": " +:+ fmt str_of status]
           else issues
       | _ => issues
       end) services issues
  = issues ++ map (issue_line str_of) (affected services).
Proof.
  revert issues. induction services as [|[name info] services IH];
    intros issues; simpl.
  - by rewrite app_nil_r.
  - rewrite IH. destruct info; try done. simpl.
    destruct (py_eqb _ _); simpl; [done|].
    by rewrite <- app_assoc.
Qed.

(** The loop of the job lists the affected services, one line each, in the
    order of the report. *)
Lemma collect_issues_affected (services : dict) :
  collect_issues str_of services = map (issue_line str_of) (affected services).
Proof. apply collect_issues_from. Qed.

Lemma is_quiet_period_after_load (f : file) (hour minute : Z) :
  is_quiet_period (snd (load_config f)) hour minute
  = (fst (is_quiet_period f hour minute), snd (load_config f)).
Proof. destruct f as [| |[]]; reflexivity. Qed.

(** C8. In a run of the health check that polls the service (the task is
    enabled and the report carries no error) and finds a service whose
    status is not ["connected"]: inside the quiet period nothing is handed
    to [send_message_to_owner]; outside it exactly one alert is, whose text
    is the headline, a blank line and one line ["- name: status"] for each
    affected service. *)
Theorem health_alert_respects_quiet_period (f : file) (hour minute : Z)
    (health services : dict) (enabled : json) (quiet : bool) :
  fst (is_task_enabled "system_health" f) = Ok enabled →
  truthy enabled = true →
  has_key "error" health = false →
  table_get "services" health = Some (JObj services) →
  affected services ≠ [] →
  fst (is_quiet_period f hour minute) = Ok quiet →
  fst (_system_health_check str_of (JObj health) hour minute f)
  = Ok (if quiet then [] else [alert (alert_text str_of services)]).
Proof.
  intros Hen Htr Herr Hsrv Haff Hq.
  unfold _system_health_check, is_task_enabled in *.
  destruct (load_config f) as [config f1] eqn:Hl.
  cbv beta iota in Hen |- *. cbn [fst] in Hen.
  rewrite Hen, Htr. simpl.
  unfold health_check_body. simpl. rewrite Herr.
  unfold get_or. rewrite Hsrv. simpl.
  rewrite collect_issues_affected.
  unfold alert_text.
  destruct (affected services) as [|a rest]; [done|].
  cbn [map].
  assert (f1 = snd (load_config f)) as -> by by rewrite Hl.
  rewrite is_quiet_period_after_load, Hq.
  by destruct quiet.
Qed.

End WithStr.

Lemma health_alert_respects_quiet_period_witness :
  fst (_system_health_check (fun _ => "?") (JObj degraded_health) 9 0 Missing)
  = Ok [alert (alert_text (fun _ => "?")
                 (dict_of_json (get_or "services" JNull degraded_health)))].
Proof.
  apply (health_alert_respects_quiet_period (fun _ => "?") Missing 9 0
           degraded_health
           (dict_of_json (get_or "services" JNull degraded_health))
           (JBool true) false).
  - reflexivity.
  - reflexivity.
  - reflexivity.
  - reflexivity.
  - vm_compute. discriminate.
  - reflexivity.
Defined.

(** The scenario of the specification: quiet from 21:00 to 06:00, the same
    report at 23:00 and at 09:00. *)
Example health_check_at_23_and_at_9 :
  fst (_system_health_check (fun _ => "?") (JObj degraded_health) 23 0 Missing)
  = Ok []
  ∧ fst (_system_health_check (fun _ => "?") (JObj degraded_health) 9 0 Missing)
  = Ok [ {| text := "System Alert: Service issues detected" +:+ nl +:+ nl
                    +:+ "- tts: disconnected" +:+ nl +:+ "- stt: unknown";
            include_audio := false;
            choom_name := Some "System" |} ].
Proof. split; reflexivity. Qed.

(** A disabled task polls nothing and sends nothing, at any hour. *)
Example disabled_health_check_is_silent :
  fst (_system_health_check (fun _ => "?") (JObj degraded_health) 9 0
         (Content (JObj [("tasks",
            JObj [("system_health", JObj [("enabled", JBool false)])])])))
  = Ok [].
Proof. reflexivity. Qed.

End HealthFacts.

(** ** Reminders *)

Module ReminderFacts.
Import TaskConfig Reminders DictFacts ConfigFacts.

(** The loaded configuration has pairwise distinct keys, whatever the file
    holds. *)
Lemma load_config_NoDup (f : file) : NoDup (keys (fst (load_config f))).
Proof.
  destruct (proj1 (wf_json_obj DEFAULT_CONFIG) DEFAULT_CONFIG_wf) as [Hd _].
  destruct f as [| |[ | | | | | |d]]; simpl; try done.
  rewrite _deep_merge_fold. by apply fold_NoDup.
Qed.

(** A member the defaults do not have is read back as it was written. *)
Lemma load_saved_member (k : string) (config : dict) (f : file) :
  NoDup (keys config) →
  table_get k DEFAULT_CONFIG = None →
  table_get k (fst (load_config (snd (save_config config f)))) = table_get k config.
Proof.
  intros Hnd Hk. simpl. rewrite _deep_merge_fold, fold_get by done.
  rewrite Hk. by destruct (table_get k config).
Qed.

Lemma get_or_set_eq (k : string) (v default : json) (d : dict) :
  get_or k default (dict_set k v d) = v.
Proof. unfold get_or. by rewrite table_get_set_eq. Qed.

Lemma get_reminders_saved (config : dict) :
  NoDup (keys config) →
  fst (get_reminders (Content (JObj config)))
  = get_or "reminders" (JArr []) config.
Proof.
  intros Hnd. unfold get_reminders.
  pose proof (load_saved_member "reminders" config Missing Hnd eq_refl) as H.
  simpl in H |- *. unfold get_or. by rewrite H.
Qed.

Lemma add_reminder_stored (rid text at_ created : string) (l : list json)
    (f : file) :
  fst (get_reminders f) = JArr l →
  fst (add_reminder rid text at_ created f) = Ok true
  ∧ fst (get_reminders (snd (add_reminder rid text at_ created f)))
    = JArr (l ++ [reminder rid text at_ created]).
Proof.
  intros Hl. unfold get_reminders in Hl. unfold add_reminder.
  pose proof (load_config_NoDup f) as Hnd.
  destruct (load_config f) as [config f1]. simpl in Hnd, Hl.
  unfold has_key, get_or in *.
  destruct (table_get "reminders" config) as [v|] eqn:E.
  - subst v. rewrite E. cbn [save_config fst snd]. split; [done|].
    rewrite get_reminders_saved by by apply keys_set_NoDup.
    apply get_or_set_eq.
  - injection Hl as <-. rewrite table_get_set_eq. cbn [save_config fst snd].
    split; [done|].
    rewrite get_reminders_saved by by do 2 apply keys_set_NoDup.
    apply get_or_set_eq.
Qed.

(** X1. [add_reminder] appends: when the stored reminders are a list [l]
    (or absent, which reads as the empty list), the call succeeds and
    [get_reminders()] afterwards returns [l] followed by the new record. *)
Theorem add_reminder_appends (rid text at_ created : string) (l : list json)
    (f : file) :
  fst (get_reminders f) = JArr l →
  fst (add_reminder rid text at_ created f) = Ok true
  ∧ fst (get_reminders (snd (add_reminder rid text at_ created f)))
    = JArr (l ++ [reminder rid text at_ created]).
Proof. intros Hl. by apply add_reminder_stored. Qed.

Lemma add_reminder_appends_witness :
  fst (add_reminder "r1" "check the oven" "2026-01-01T10:00:00"
         "2026-01-01T09:58:00" Missing) = Ok true
  ∧ fst (get_reminders (snd (add_reminder "r1" "check the oven"
           "2026-01-01T10:00:00" "2026-01-01T09:58:00" Missing)))
    = JArr ([] ++ [reminder "r1" "check the oven" "2026-01-01T10:00:00"
                     "2026-01-01T09:58:00"]).
Proof.
  apply (add_reminder_appends "r1" "check the oven" "2026-01-01T10:00:00"
           "2026-01-01T09:58:00" [] Missing).
  reflexivity.
Defined.

(** On reminders that all carry an id, the comprehension is a filter. *)
Lemma without_id_filter (rid : string) (l : list json) :
  Forall (fun r => ∃ d, r = JObj d ∧ has_key "id" d = true) l →
  without_id rid l
  = Ok (List.filter (fun r => negb (py_eqb (get_or "id" JNull (dict_of_json r))
                                          (JStr rid))) l).
Proof.
  induction 1 as [|r l (d & -> & Hid) _ IH]; [done|].
  simpl. rewrite IH. unfold other_id, has_key, get_or in *. simpl.
  destruct (table_get "id" d) as [i|]; [|done]. simpl.
  by destruct (py_eqb i (JStr rid)).
Qed.

Lemma remove_reminder_stored (rid : string) (l : list json) (f : file) :
  fst (get_reminders f) = JArr l →
  Forall (fun r => ∃ d, r = JObj d ∧ has_key "id" d = true) l →
  fst (remove_reminder rid f) = Ok true
  ∧ fst (get_reminders (snd (remove_reminder rid f)))
    = JArr (List.filter
              (fun r => negb (py_eqb (get_or "id" JNull (dict_of_json r))
                                     (JStr rid))) l).
Proof.
  intros Hl Hall. unfold get_reminders in Hl. unfold remove_reminder.
  pose proof (load_config_NoDup f) as Hnd.
  destruct (load_config f) as [config f1]. simpl in Hnd, Hl.
  rewrite Hl. cbn [py_iter mbind result_bind].
  rewrite (without_id_filter rid l Hall). cbn [save_config fst snd].
  split; [done|].
  rewrite get_reminders_saved by by apply keys_set_NoDup.
  apply get_or_set_eq.
Qed.

(** X2. [remove_reminder] drops every stored reminder whose id equals the
    given one and keeps the others in their order, when the stored
    reminders are a list of objects that all have an ["id"]. *)
Theorem remove_reminder_filters (rid : string) (l : list json) (f : file) :
  fst (get_reminders f) = JArr l →
  Forall (fun r => ∃ d, r = JObj d ∧ has_key "id" d = true) l →
  fst (remove_reminder rid f) = Ok true
  ∧ fst (get_reminders (snd (remove_reminder rid f)))
    = JArr (List.filter
              (fun r => negb (py_eqb (get_or "id" JNull (dict_of_json r))
                                     (JStr rid))) l).
Proof. intros Hl Hall. by apply remove_reminder_stored. Qed.

Lemma remove_reminder_filters_witness :
  let f := Content (JObj [("reminders",
             JArr [reminder "r1" "a" "t1" "c"; reminder "r2" "b" "t2" "c"])]) in
  fst (remove_reminder "r1" f) = Ok true
  ∧ fst (get_reminders (snd (remove_reminder "r1" f)))
    = JArr (List.filter
              (fun r => negb (py_eqb (get_or "id" JNull (dict_of_json r))
                                     (JStr "r1")))
              [reminder "r1" "a" "t1" "c"; reminder "r2" "b" "t2" "c"]).
Proof.
  apply (remove_reminder_filters "r1"
           [reminder "r1" "a" "t1" "c"; reminder "r2" "b" "t2" "c"]).
  - reflexivity.
  - repeat constructor; eexists; (split; [reflexivity|reflexivity]).
Defined.

Lemma filter_other_ids (rid : string) (l : list json) :
  Forall (fun r => ∃ i, reminder_id_of r = Some i ∧ i ≠ rid) l →
  List.filter (fun r => negb (py_eqb (get_or "id" JNull (dict_of_json r))
                                     (JStr rid))) l = l.
Proof.
  induction 1 as [|r l (i & Hi & Hne) _ IH]; [done|].
  simpl. rewrite IH. unfold reminder_id_of in Hi.
  destruct r as [ | | | | | |d]; try done. simpl. unfold get_or.
  destruct (table_get "id" d) as [[]|]; try done.
  injection Hi as ->. simpl.
  by destruct (String.eqb_spec i rid).
Qed.

Lemma has_id_of (r : json) (i : string) :
  reminder_id_of r = Some i → ∃ d, r = JObj d ∧ has_key "id" d = true.
Proof.
  destruct r as [ | | | | | |d]; try done. simpl. intros H.
  exists d. split; [done|]. unfold has_key.
  by destruct (table_get "id" d).
Qed.

(** X3. Adding a reminder under an id no stored reminder has, and removing
    it again, leaves the stored reminders as they were. *)
Theorem add_then_remove_reminder (rid text at_ created : string)
    (l : list json) (f : file) :
  fst (get_reminders f) = JArr l →
  Forall (fun r => ∃ i, reminder_id_of r = Some i ∧ i ≠ rid) l →
  fst (get_reminders
         (snd (remove_reminder rid (snd (add_reminder rid text at_ created f)))))
  = JArr l.
Proof.
  intros Hl Hall.
  destruct (add_reminder_stored rid text at_ created l f Hl) as [_ Hadd].
  destruct (remove_reminder_stored rid _ _ Hadd) as [_ ->].
  - apply Forall_app. split.
    + eapply Forall_impl; [exact Hall|]. intros r (i & Hi & _).
      by apply has_id_of in Hi.
    + repeat constructor. by eexists.
  - rewrite List.filter_app, (filter_other_ids rid l Hall). simpl.
    rewrite String.eqb_refl. simpl. by rewrite app_nil_r.
Qed.

Lemma add_then_remove_reminder_witness :
  let f := Content (JObj [("reminders", JArr [reminder "r2" "b" "t2" "c"])]) in
  fst (get_reminders
         (snd (remove_reminder "r1" (snd (add_reminder "r1" "a" "t1" "c" f)))))
  = JArr [reminder "r2" "b" "t2" "c"].
Proof.
  apply (add_then_remove_reminder "r1" "a" "t1" "c" [reminder "r2" "b" "t2" "c"]).
  - reflexivity.
  - repeat constructor. exists "r2". split; [reflexivity|discriminate].
Defined.

(** X4. [add_reminder] on stored reminders that are not a list raises and
    writes nothing: the file is the one [load_config] left. *)
Theorem add_reminder_needs_list (rid text at_ created : string) (f : file)
    (v : json) :
  fst (get_reminders f) = v →
  (∀ l, v ≠ JArr l) →
  add_reminder rid text at_ created f
  = (Raise AttributeError, snd (load_config f)).
Proof.
  unfold get_reminders, add_reminder.
  destruct (load_config f) as [config f1]. simpl.
  intros <- Hv. unfold has_key, get_or in *.
  destruct (table_get "reminders" config) as [x|] eqn:E.
  - rewrite E. destruct x; try done. by destruct (Hv l).
  - by destruct (Hv []).
Qed.

Lemma add_reminder_needs_list_witness :
  add_reminder "r1" "a" "t1" "c" (Content (JObj [("reminders", JNull)]))
  = (Raise AttributeError,
     snd (load_config (Content (JObj [("reminders", JNull)])))).
Proof.
  apply (add_reminder_needs_list "r1" "a" "t1" "c" _ JNull).
  - reflexivity.
  - discriminate.
Defined.

End ReminderFacts.

(** ** More of the configuration store *)

Module StoreFacts.
Import TaskConfig DictFacts ConfigFacts.

Lemma deep_merge_get (base override : dict) (k : string) :
  NoDup (keys override) →
  table_get k (_deep_merge base override)
  = match table_get k override with
    | None => table_get k base
    | Some (JObj o) =>
        match table_get k base with
        | Some (JObj b) => Some (JObj (_deep_merge b o))
        | _ => Some (JObj o)
        end
    | Some v => Some v
    end.
Proof.
  intros Hnd. rewrite _deep_merge_fold, fold_get by done.
  destruct (table_get k override) as [v|]; [|done].
  unfold merged. destruct (table_get k base) as [[]|]; by destruct v.
Qed.

(** X5. What [_deep_merge] holds under a key, for an override with distinct
    keys: the base's value when the override lacks the key, the recursive
    merge when both hold a dict, and the override's value otherwise. *)
Theorem deep_merge_lookup (base override : dict) (k : string) :
  NoDup (keys override) →
  table_get k (_deep_merge base override)
  = match table_get k override with
    | None => table_get k base
    | Some (JObj o) =>
        match table_get k base with
        | Some (JObj b) => Some (JObj (_deep_merge b o))
        | _ => Some (JObj o)
        end
    | Some v => Some v
    end.
Proof. intros Hd. by apply deep_merge_get. Qed.

Lemma deep_merge_lookup_witness :
  table_get "heartbeat" (_deep_merge DEFAULT_CONFIG
     [("heartbeat", JObj [("quiet_start", JStr "22:00")])])
  = match table_get "heartbeat" [("heartbeat", JObj [("quiet_start", JStr "22:00")])] with
    | None => table_get "heartbeat" DEFAULT_CONFIG
    | Some (JObj o) =>
        match table_get "heartbeat" DEFAULT_CONFIG with
        | Some (JObj b) => Some (JObj (_deep_merge b o))
        | _ => Some (JObj o)
        end
    | Some v => Some v
    end.
Proof.
  apply (deep_merge_lookup DEFAULT_CONFIG
           [("heartbeat", JObj [("quiet_start", JStr "22:00")])] "heartbeat").
  apply (bool_decide_unpack _). vm_compute. reflexivity.
Defined.

Lemma dict_set_fresh (k : string) (v : json) (d : dict) :
  table_get k d = None → dict_set k v d = d ++ [(k, v)].
Proof.
  induction d as [|[k' v'] d IH]; simpl; [done|].
  destruct (String.eqb_spec k k'); [done|]. intros H. by rewrite IH.
Qed.

Lemma table_get_app_None {V : Type} (k : string) (a b : list (string * V)) :
  table_get k (a ++ b) = None ↔ table_get k a = None ∧ table_get k b = None.
Proof.
  induction a as [|[k' v'] a IH]; simpl; [tauto|].
  destruct (String.eqb k k'); [|done]. split; [done|]. by intros [? _].
Qed.

Lemma fold_onto_disjoint (o acc : dict) :
  NoDup (keys o) →
  (∀ k, In k (keys o) → table_get k acc = None) →
  fold_left merge_step o acc = acc ++ o.
Proof.
  revert acc. induction o as [|[k v] o IH]; intros acc Hnd Hdis; simpl.
  - by rewrite app_nil_r.
  - unfold keys in Hnd. simpl in Hnd. apply NoDup_cons in Hnd as [Hk Hnd].
    assert (table_get k acc = None) as Hka by (apply Hdis; by left).
    unfold merge_step at 2. simpl. rewrite Hka.
    unfold merged. rewrite (dict_set_fresh k v acc Hka).
    rewrite IH, <- app_assoc; [done|done|].
    intros k' Hin. apply table_get_app_None. split.
    + apply Hdis. by right.
    + simpl. destruct (String.eqb_spec k' k) as [->|]; [|done].
      destruct Hk. by apply list_elem_of_In.
Qed.

(** Merging a document with distinct keys over an empty base returns
    the document itself, entries and order unchanged. *)
Theorem deep_merge_empty_base (override : dict) :
  NoDup (keys override) → _deep_merge [] override = override.
Proof.
  intros Hnd. rewrite _deep_merge_fold.
  by rewrite fold_onto_disjoint.
Qed.

Lemma deep_merge_empty_base_witness :
  _deep_merge [] sample_document = sample_document.
Proof.
  apply (deep_merge_empty_base sample_document).
  apply (bool_decide_unpack _). vm_compute. reflexivity.
Defined.

(** X6. Whatever the configuration file holds, even nothing or text that is
    not JSON, the loaded configuration has every top-level member of the
    defaults. *)
Theorem load_config_has_defaults (f : file) (k : string) :
  has_key k DEFAULT_CONFIG = true →
  has_key k (fst (load_config f)) = true.
Proof.
  intros Hk. destruct f as [| |[ | | | | | |d]]; simpl; try done.
  rewrite _deep_merge_fold. unfold has_key in *.
  destruct (table_get k DEFAULT_CONFIG) as [v|] eqn:E; [|done].
  destruct (table_get k (fold_left merge_step d DEFAULT_CONFIG)) eqn:E'; [done|].
  apply table_get_None in E'. destruct E'.
  apply (fold_keys k d DEFAULT_CONFIG). left.
  apply table_get_In in E. apply in_map_iff. by exists (k, v).
Qed.

Lemma load_config_has_defaults_witness :
  has_key "heartbeat" (fst (load_config (Content (JObj [("tasks", JInt 0)])))) = true.
Proof.
  apply (load_config_has_defaults _ "heartbeat"). reflexivity.
Defined.

(** The defaults give every built-in task a flag that is not a dict. *)
Lemma default_task_flag (task_id : string) (x : json) :
  table_get task_id (dict_of_json (get_or "tasks" JNull DEFAULT_CONFIG)) = Some x →
  ∃ de b, x = JObj de ∧ table_get "enabled" de = Some (JBool b).
Proof.
  simpl. unfold task.
  repeat (destruct (String.eqb task_id _);
          [intros [= <-]; by do 2 eexists |]).
  discriminate.
Qed.

(** X7. The flag the file stores for a task wins: when the file's document
    has [tasks[task_id]["enabled"] = v], [is_task_enabled(task_id)] returns
    [v], for a built-in task as for any other. *)
Theorem is_task_enabled_reads_file (task_id : string) (d t e : dict) (v : json) :
  NoDup (keys d) → NoDup (keys t) → NoDup (keys e) →
  table_get "tasks" d = Some (JObj t) →
  table_get task_id t = Some (JObj e) →
  table_get "enabled" e = Some v →
  fst (is_task_enabled task_id (Content (JObj d))) = Ok v.
Proof.
  intros Hd Ht He Htasks Htask Hflag. unfold is_task_enabled. simpl.
  unfold get_or at 1. rewrite (deep_merge_get _ _ "tasks" Hd), Htasks.
  simpl. unfold task. simpl. unfold get_or.
  rewrite (deep_merge_get _ _ task_id Ht), Htask.
  match goal with |- context [table_get task_id ?dt] =>
    destruct (table_get task_id dt) as [x|] eqn:Ex end.
  - apply default_task_flag in Ex as (de & b & -> & Hb). simpl. unfold get_or.
    by rewrite (deep_merge_get _ _ "enabled" He), Hflag, Hb; destruct v.
  - simpl. unfold get_or. by rewrite Hflag.
Qed.

Lemma is_task_enabled_reads_file_witness :
  fst (is_task_enabled "system_health"
         (Content (JObj [("tasks",
            JObj [("system_health", JObj [("enabled", JBool false)])])])))
  = Ok (JBool false).
Proof.
  apply (is_task_enabled_reads_file "system_health"
           [("tasks", JObj [("system_health", JObj [("enabled", JBool false)])])]
           [("system_health", JObj [("enabled", JBool false)])]
           [("enabled", JBool false)] (JBool false)).
  - apply (bool_decide_unpack _). vm_compute. reflexivity.
  - apply (bool_decide_unpack _). vm_compute. reflexivity.
  - apply (bool_decide_unpack _). vm_compute. reflexivity.
  - reflexivity.
  - reflexivity.
  - reflexivity.
Defined.

(** X8. A task that neither the file nor the defaults mention is enabled. *)
Theorem is_task_enabled_unknown (task_id : string) (d t : dict) :
  NoDup (keys d) → NoDup (keys t) →
  table_get "tasks" d = Some (JObj t) →
  table_get task_id t = None →
  table_get task_id (dict_of_json (get_or "tasks" JNull DEFAULT_CONFIG)) = None →
  fst (is_task_enabled task_id (Content (JObj d))) = Ok (JBool true).
Proof.
  intros Hd Ht Htasks Htask Hdef. unfold is_task_enabled. simpl.
  unfold get_or at 1. rewrite (deep_merge_get _ _ "tasks" Hd), Htasks.
  simpl. unfold get_or.
  rewrite (deep_merge_get _ _ task_id Ht), Htask.
  match goal with |- context [table_get task_id ?dt] =>
    change dt with (dict_of_json (get_or "tasks" JNull DEFAULT_CONFIG)) end.
  by rewrite Hdef.
Qed.

Lemma is_task_enabled_unknown_witness :
  fst (is_task_enabled "db_backup" (Content (JObj [("tasks", JObj [])])))
  = Ok (JBool true).
Proof.
  apply (is_task_enabled_unknown "db_backup" [("tasks", JObj [])] []).
  - apply (bool_decide_unpack _). vm_compute. reflexivity.
  - apply (bool_decide_unpack _). vm_compute. reflexivity.
  - reflexivity.
  - reflexivity.
  - reflexivity.
Defined.

(** X9. For a same-day quiet range, whose start minute is at most its end
    minute, [is_quiet_period] at minute [m] answers true exactly when
    [start <= m < end]; a range with equal bounds is never quiet. *)
Theorem is_quiet_period_same_day (f : file) (hour minute s e : Z) :
  quiet_bounds (fst (load_config f)) = Ok (s, e) →
  (s <= e)%Z →
  ∃ q, fst (is_quiet_period f hour minute) = Ok q
       ∧ (q = true ↔ (s <= hour * 60 + minute < e)%Z)
       ∧ (s = e → q = false).
Proof.
  intros Hb Hle. unfold is_quiet_period.
  destruct (load_config f) as [config f'] eqn:Hl. simpl in *.
  rewrite Hb. simpl.
  destruct (Z.leb_spec s e) as [_|?]; [|lia].
  eexists. split; [reflexivity|]. split.
  - rewrite andb_true_iff, Z.leb_le, Z.ltb_lt. lia.
  - intros ->. apply andb_false_iff. rewrite Z.leb_gt, Z.ltb_ge. lia.
Qed.

Lemma is_quiet_period_same_day_witness :
  let f := Content (JObj [("heartbeat",
             JObj [("quiet_start", JStr "13:00"); ("quiet_end", JStr "14:30")])]) in
  ∃ q, fst (is_quiet_period f 14 29) = Ok q
       ∧ (q = true ↔ (13 * 60 + 0 <= 14 * 60 + 29 < 14 * 60 + 30)%Z)
       ∧ (13 * 60 + 0 = 14 * 60 + 30 → q = false)%Z.
Proof.
  apply (is_quiet_period_same_day _ 14 29 (13 * 60 + 0) (14 * 60 + 30)).
  - reflexivity.
  - lia.
Defined.

End StoreFacts.

(** ** Requests, responses and notifications *)

Module CorrelationFacts.
Import SignalHandler Transport.




(** X11. A waiter whose event is not set when the wait returns times out
    and is forgotten, and a response that arrives for it afterwards is
    discarded: the reader leaves the handler as it is. *)
Theorem late_response_is_dropped (h : handler) (req_id : Z) (ev : nat)
    (response : dict) :
  is_set ev h = false →
  table_get "id" response = Some (JInt req_id) →
  is_receive response = false →
  fst (send_request_finish req_id ev h) = Raise TimeoutError
  ∧ reader_deliver response (snd (send_request_finish req_id ev h))
    = snd (send_request_finish req_id ev h).
Proof.
  intros Hset Hid Hrecv. unfold send_request_finish. rewrite Hset. simpl.
  split; [done|].
  unfold reader_deliver, answered. simpl.
  rewrite Hid, lookup_delete_eq.
  unfold is_receive in Hrecv. by rewrite Hrecv.
Qed.

Lemma late_response_is_dropped_witness :
  let h := snd (send_request_begin "sendTyping" JNull true connected_handler) in
  let response := [("jsonrpc", JStr "2.0"); ("id", JInt 1); ("result", JObj [])] in
  fst (send_request_finish 1 0 h) = Raise TimeoutError
  ∧ reader_deliver response (snd (send_request_finish 1 0 h))
    = snd (send_request_finish 1 0 h).
Proof.
  apply late_response_is_dropped.
  - reflexivity.
  - reflexivity.
  - reflexivity.
Defined.

Lemma table_ok_empty (last_id : Z) (n : nat) : table_ok ∅ last_id n.
Proof. split; intros *; by rewrite lookup_empty. Qed.

Lemma table_ok_delete (p : gmap Z nat) (last_id : Z) (n : nat) (i : Z) :
  table_ok p last_id n → table_ok (delete i p) last_id n.
Proof.
  intros [Hb Hinj]. split.
  - intros j ev [_ Hj]%lookup_delete_Some. by apply Hb.
  - intros j k ev [_ Hj]%lookup_delete_Some [_ Hk]%lookup_delete_Some.
    by eapply Hinj.
Qed.

Lemma table_ok_insert (p : gmap Z nat) (last_id : Z) (n : nat) :
  table_ok p last_id n → table_ok (<[(last_id + 1)%Z := n]> p) (last_id + 1) (S n).
Proof.
  intros [Hb Hinj]. split.
  - intros j ev [[<- <-]|[_ Hj]]%lookup_insert_Some; [lia|].
    apply Hb in Hj. lia.
  - intros j k ev [[<- <-]|[_ Hj]]%lookup_insert_Some
                  [[<- Hn]|[_ Hk]]%lookup_insert_Some; try done.
    + apply Hb in Hk. lia.
    + apply Hb in Hj. lia.
    + by eapply Hinj.
Qed.

Lemma well_formed_connected : well_formed connected_handler.
Proof. apply table_ok_empty. Qed.

Lemma well_formed_begin (h : handler) method params ok :
  well_formed h → well_formed (snd (send_request_begin method params ok h)).
Proof.
  intros Hwf. unfold send_request_begin.
  destruct (_connected h); simpl; [|done].
  destruct (_sock h); simpl; [destruct ok|]; unfold well_formed; simpl;
    rewrite length_app, Nat.add_1_r;
    try apply table_ok_delete; by apply table_ok_insert.
Qed.

Lemma well_formed_deliver (h : handler) (data : dict) :
  well_formed h → well_formed (reader_deliver data h).
Proof.
  intros Hwf. unfold reader_deliver.
  destruct (answered data h) as [[r e]|]; [|by destruct (py_eqb _ _)].
  unfold well_formed. simpl. by rewrite length_insert.
Qed.

Lemma well_formed_finish (h : handler) (req_id : Z) (ev : nat) :
  well_formed h → well_formed (snd (send_request_finish req_id ev h)).
Proof.
  intros Hwf. unfold send_request_finish.
  destruct (is_set ev h); simpl; [destruct (has_key _ _)|];
    by apply table_ok_delete.
Qed.

Lemma well_formed_disconnect (h : handler) : well_formed (disconnect h).
Proof. apply table_ok_empty. Qed.

(** X12. The request table stays well formed under every operation of the
    transport: pending ids have been handed out, their events exist, and no
    two waiters share an event. So the id the next request takes is not
    the id of a request that is still waiting. *)
Theorem well_formed_invariant (h : handler) :
  well_formed h →
  (∀ method params ok,
     well_formed (snd (send_request_begin method params ok h)))
  ∧ (∀ data, well_formed (reader_deliver data h))
  ∧ (∀ req_id ev, well_formed (snd (send_request_finish req_id ev h)))
  ∧ well_formed (disconnect h)
  ∧ _pending_requests h !! (_request_id h + 1)%Z = None.
Proof.
  intros Hwf. split; [|split; [|split; [|split]]].
  - intros. by apply well_formed_begin.
  - intros. by apply well_formed_deliver.
  - intros. by apply well_formed_finish.
  - apply well_formed_disconnect.
  - destruct (_pending_requests h !! (_request_id h + 1)%Z) eqn:E; [|done].
    apply Hwf in E. lia.
Qed.

Lemma well_formed_invariant_witness :
  let h := snd (send_request_begin "send" JNull true connected_handler) in
  (∀ method params ok,
     well_formed (snd (send_request_begin method params ok h)))
  ∧ (∀ data, well_formed (reader_deliver data h))
  ∧ (∀ req_id ev, well_formed (snd (send_request_finish req_id ev h)))
  ∧ well_formed (disconnect h)
  ∧ _pending_requests h !! (_request_id h + 1)%Z = None.
Proof.
  apply well_formed_invariant.
  apply well_formed_begin, well_formed_connected.
Defined.

(** X13. A response wakes only its own waiter: when two requests are
    waiting and the reader reads the response to one of them, the event of
    the other stays as it was and both stay registered. *)
Theorem response_wakes_only_its_waiter (h : handler) (i j : Z) (ei ej : nat)
    (response : dict) :
  well_formed h →
  _pending_requests h !! i = Some ei →
  _pending_requests h !! j = Some ej →
  i ≠ j →
  table_get "id" response = Some (JInt i) →
  is_set ei (reader_deliver response h) = true
  ∧ is_set ej (reader_deliver response h) = is_set ej h
  ∧ _pending_requests (reader_deliver response h) = _pending_requests h.
Proof.
  intros [Hb Hinj] Hi Hj Hne Hid.
  unfold reader_deliver, answered, is_set. rewrite Hid, Hi. simpl.
  split; [|split; [|done]].
  - rewrite list_lookup_insert_eq; [done|]. apply Hb in Hi. lia.
  - rewrite list_lookup_insert_ne; [done|].
    intros <-. by apply Hne, (Hinj i j ei).
Qed.

Lemma response_wakes_only_its_waiter_witness :
  let h := snd (send_request_begin "sendTyping" JNull true
             (snd (send_request_begin "send" JNull true connected_handler))) in
  let response := [("id", JInt 1); ("result", JObj [])] in
  is_set 0 (reader_deliver response h) = true
  ∧ is_set 1 (reader_deliver response h) = is_set 1 h
  ∧ _pending_requests (reader_deliver response h) = _pending_requests h.
Proof.
  apply (response_wakes_only_its_waiter _ 1 2 0 1).
  - apply well_formed_begin, well_formed_begin, well_formed_connected.
  - reflexivity.
  - reflexivity.
  - lia.
  - reflexivity.
Defined.

Lemma reader_run_notifications (lines : list dict) (h : handler) :
  Forall (fun data => is_receive data = true ∧ table_get "id" data = None) lines →
  _message_queue (reader_run lines h)
  = _message_queue h ++ map (get_or "params" (JObj [])) lines
  ∧ _pending_requests (reader_run lines h) = _pending_requests h
  ∧ _responses (reader_run lines h) = _responses h
  ∧ events (reader_run lines h) = events h.
Proof.
  intros Hall. revert h.
  induction Hall as [|data lines [Hrecv Hid] _ IH]; intros h; simpl.
  - by rewrite app_nil_r.
  - destruct (IH (reader_deliver data h)) as (-> & -> & -> & ->).
    unfold reader_deliver, answered. rewrite Hid.
    unfold is_receive in Hrecv. rewrite Hrecv. simpl.
    by rewrite <- app_assoc.
Qed.

(** X14. Notifications are handed over in arrival order and only once: after
    the reader has read a run of [receive] notifications (lines without an
    ["id"]), [receive_messages()] returns what was queued before followed
    by their [params], in order, and a second call returns nothing. The
    request tables are not touched. *)
Theorem notifications_drain_in_order (lines : list dict) (h : handler) :
  Forall (fun data => is_receive data = true ∧ table_get "id" data = None) lines →
  let drained := receive_messages (reader_run lines h) in
  fst drained = _message_queue h ++ map (get_or "params" (JObj [])) lines
  ∧ fst (receive_messages (snd drained)) = []
  ∧ _pending_requests (snd drained) = _pending_requests h
  ∧ _responses (snd drained) = _responses h.
Proof.
  intros Hall. destruct (reader_run_notifications lines h Hall) as (H1 & H2 & H3 & _).
  simpl. by rewrite H1, H2, H3.
Qed.

Lemma notifications_drain_in_order_witness :
  let lines := [ [("method", JStr "receive"); ("params", JObj [("n", JInt 1)])];
                 [("method", JStr "receive"); ("params", JObj [("n", JInt 2)])] ] in
  let drained := receive_messages (reader_run lines connected_handler) in
  fst drained = _message_queue connected_handler
                ++ map (get_or "params" (JObj [])) lines
  ∧ fst (receive_messages (snd drained)) = []
  ∧ _pending_requests (snd drained) = _pending_requests connected_handler
  ∧ _responses (snd drained) = _responses connected_handler.
Proof.
  apply notifications_drain_in_order.
  repeat constructor.
Defined.

End CorrelationFacts.

(** ** More of the companion client *)

Module DirectoryFacts.
Import ChoomClient Directory ClientFacts.



Lemma on_event_done (d : dict) (a : acc) :
  table_get "type" d = Some (JStr "done") → on_event (JObj d) a = Ok (inr a).
Proof. intros H. unfold on_event. simpl. unfold get_or. by rewrite H. Qed.

(** X15. The stream loop stops at the first [done] event it reaches: what
    the service sends after it, well formed or not, changes neither the
    reply nor whether the call raises. *)
Theorem read_stream_stops_at_done (pre post : list sse_line) (d : dict) (a : acc) :
  table_get "type" d = Some (JStr "done") →
  read_stream (pre ++ Data (JObj d) :: post) a
  = read_stream (pre ++ [Data (JObj d)]) a.
Proof.
  intros Hd. revert a. induction pre as [|line pre IH]; intros a; simpl.
  - by rewrite (on_event_done d a Hd).
  - destruct line as [ | | |j]; try done.
    destruct (on_event j a) as [[a'|a']|e]; simpl; [apply IH|done|done].
Qed.

Lemma read_stream_stops_at_done_witness :
  read_stream ([content_event "Hi"] ++ Data (JObj [("type", JStr "done")])
                 :: [Undecodable; content_event "ignored"])
              {| a_content := ""; a_tool_calls := []; a_tool_results := [];
                 a_images := [] |}
  = read_stream ([content_event "Hi"] ++ [Data (JObj [("type", JStr "done")])])
              {| a_content := ""; a_tool_calls := []; a_tool_results := [];
                 a_images := [] |}.
Proof.
  apply (read_stream_stops_at_done [content_event "Hi"]).
  reflexivity.
Defined.



(** X17. A failed refresh keeps the stale directory: when [GET /api/chooms]
    fails, [get_choom_by_name] does not raise, answers from the directory
    it has, and changes nothing. *)
Theorem stale_directory_survives (sv : server) (clk : clock) (e : exn)
    (n : string) (w : world) :
  GET_chooms sv = Raise e →
  get_choom_by_name sv clk n w = (Ok (chooms (cl w) !! Py.lower n), w).
Proof.
  intros Hfail. unfold get_choom_by_name, _ensure_chooms_fresh.
  unfold mbind, M_bind, get_client, try_except, fetch_chooms, lift, mret, M_ret.
  simpl. rewrite Hfail.
  by destruct (bool_decide _ || Qltb _ _).
Qed.

Lemma stale_directory_survives_witness :
  let sv := {| GET_chooms := Raise RequestException;
               GET_chat := fun _ => Ok tt;
               POST_chats := fun _ _ => Raise RequestException;
               POST_chat := fun _ => Raise RequestException |} in
  let w := {| cl := with_chooms (directory_of [genesis]) new_client;
              config_file := TaskConfig.Missing |} in
  get_choom_by_name sv demo_clock "GENESIS" w
  = (Ok (chooms (cl w) !! Py.lower "GENESIS"), w).
Proof.
  apply (stale_directory_survives _ demo_clock RequestException).
  reflexivity.
Defined.

Lemma directory_other_keys (data : list ChoomInfo) (m0 : gmap string ChoomInfo)
    (key : string) :
  key ∉ map (fun c => Py.lower (name c)) data →
  fold_left (fun m c => <[Py.lower (name c) := c]> m) data m0 !! key = m0 !! key.
Proof.
  revert m0. induction data as [|c data IH]; intros m0 Hk; [done|].
  simpl in *. apply not_elem_of_cons in Hk as [Hne Hk].
  rewrite IH by done. by rewrite lookup_insert_ne.
Qed.

Lemma directory_lookup (data : list ChoomInfo) (m0 : gmap string ChoomInfo)
    (ch : ChoomInfo) :
  NoDup (map (fun c => Py.lower (name c)) data) →
  ch ∈ data →
  fold_left (fun m c => <[Py.lower (name c) := c]> m) data m0
    !! Py.lower (name ch) = Some ch.
Proof.
  revert m0. induction data as [|c data IH]; intros m0 Hnd Hin.
  - by apply elem_of_nil in Hin.
  - simpl in Hnd. apply NoDup_cons in Hnd as [Hc Hnd]. simpl.
    apply elem_of_cons in Hin as [->|Hin]; [|by apply IH].
    rewrite directory_other_keys by done. apply lookup_insert_eq.
Qed.

(** X18. The directory is keyed without regard to case: after a refresh
    from records whose lower-cased names are distinct, every record is
    found under any spelling that lower-cases to its name. *)
Theorem directory_is_case_insensitive (sv : server) (clk : clock)
    (data : list ChoomInfo) (ch : ChoomInfo) (m : string) (w : world) :
  GET_chooms sv = Ok data →
  chooms (cl w) = ∅ →
  NoDup (map (fun c => Py.lower (name c)) data) →
  ch ∈ data →
  Py.lower m = Py.lower (name ch) →
  fst (get_choom_by_name sv clk m w) = Ok (Some ch).
Proof.
  intros Hget Hempty Hnd Hin Hm.
  unfold get_choom_by_name, _ensure_chooms_fresh.
  unfold mbind, M_bind, get_client, try_except, fetch_chooms, lift, mret, M_ret,
    modify_client.
  simpl. rewrite Hempty, Hget. simpl.
  rewrite bool_decide_eq_true_2 by done. simpl.
  rewrite Hm. f_equal. by apply directory_lookup.
Qed.

Lemma directory_is_case_insensitive_witness :
  fst (get_choom_by_name demo_server demo_clock "gEnEsIs" fresh_world)
  = Ok (Some genesis).
Proof.
  apply (directory_is_case_insensitive demo_server demo_clock [genesis]).
  - reflexivity.
  - reflexivity.
  - apply (bool_decide_unpack _). vm_compute. reflexivity.
  - apply list_elem_of_In. simpl. left. reflexivity.
  - reflexivity.
Defined.

(** X19. A chat is reused: once [get_or_create_chat] has returned a chat
    for a companion, and as long as the service still knows that chat, a
    further call returns the same chat and changes nothing. *)
Theorem chat_is_reused (sv : server) (choom_id : string) (chat : json)
    (w w' : world) :
  get_or_create_chat sv choom_id w = (Ok chat, w') →
  GET_chat sv chat = Ok tt →
  get_or_create_chat sv choom_id w' = (Ok chat, w').
Proof.
  unfold get_or_create_chat, create_chat.
  unfold mbind, M_bind, get_client, try_except, lift, mret, M_ret, modify_client.
  simpl. intros Hfirst Hknown.
  assert (chats (cl w') !! choom_id = Some chat) as Hchat.
  { destruct (chats (cl w) !! choom_id) as [c|] eqn:E.
    - destruct (GET_chat sv c) as [[]|]; simpl in Hfirst.
      + by injection Hfirst as <- <-.
      + destruct (POST_chats sv choom_id _); simpl in Hfirst; [|done].
        injection Hfirst as <- <-. simpl. apply lookup_insert_eq.
    - destruct (POST_chats sv choom_id _); simpl in Hfirst; [|done].
      injection Hfirst as <- <-. simpl. apply lookup_insert_eq. }
  rewrite Hchat, Hknown. done.
Qed.

Lemma chat_is_reused_witness :
  get_or_create_chat demo_server "c1"
    (snd (get_or_create_chat demo_server "c1" fresh_world))
  = (Ok (JStr "chat-1"), snd (get_or_create_chat demo_server "c1" fresh_world)).
Proof.
  apply (chat_is_reused demo_server "c1" (JStr "chat-1") fresh_world).
  - reflexivity.
  - reflexivity.
Defined.



(** X21. Recording the activity of one companion does not touch another:
    for names that lower-case differently the answer of [is_user_active]
    is the one before the recording. *)
Theorem user_activity_is_per_companion (n m : string) (w t0 t : Q) (c : client) :
  Py.lower m ≠ Py.lower n →
  is_user_active m w t (record_user_activity n t0 c) = is_user_active m w t c.
Proof.
  intros Hl. unfold is_user_active, record_user_activity. simpl.
  by rewrite lookup_insert_ne.
Qed.

Lemma user_activity_is_per_companion_witness :
  is_user_active "Lissa" 120 1001 (record_user_activity "Genesis" 1000 new_client)
  = is_user_active "Lissa" 120 1001 new_client.
Proof.
  apply user_activity_is_per_companion.
  vm_compute. discriminate.
Defined.

End DirectoryFacts.

(** ** More of the health check *)

Module HealthMoreFacts.
Import TaskConfig Scheduler HealthFacts Directory.

Section WithStr.
Variable str_of : json → string.

(** X22. A report with a top-level ["error"], as [check_health] builds when
    the request fails, takes precedence over the services: in a run of the
    enabled job, outside the quiet period exactly one alert
    ["System Alert: Health check failed - <error>"] is handed to
    [send_message_to_owner], inside it none. *)
Theorem health_failure_alert (f : file) (hour minute : Z) (health : dict)
    (err enabled : json) (quiet : bool) :
  fst (is_task_enabled "system_health" f) = Ok enabled →
  truthy enabled = true →
  table_get "error" health = Some err →
  fst (is_quiet_period f hour minute) = Ok quiet →
  fst (_system_health_check str_of (JObj health) hour minute f)
  = Ok (if quiet then []
        else [alert ("System Alert: Health check failed - " +:+ fmt str_of err)]).
Proof.
  intros Hen Htr Herr Hq.
  unfold _system_health_check, is_task_enabled in *.
  destruct (load_config f) as [config f1] eqn:Hl.
  cbv beta iota in Hen |- *. cbn [fst] in Hen.
  rewrite Hen, Htr. simpl.
  unfold health_check_body. simpl. unfold has_key. rewrite Herr.
  assert (f1 = snd (load_config f)) as -> by by rewrite Hl.
  rewrite is_quiet_period_after_load, Hq.
  by destruct quiet.
Qed.

(** X23. When no service object reports a status other than ["connected"],
    the enabled job sends nothing, at any hour and whatever the quiet
    range is. *)
Theorem health_all_connected_is_silent (f : file) (hour minute : Z)
    (health services : dict) (enabled : json) :
  fst (is_task_enabled "system_health" f) = Ok enabled →
  truthy enabled = true →
  has_key "error" health = false →
  get_or "services" (JObj []) health = JObj services →
  affected services = [] →
  fst (_system_health_check str_of (JObj health) hour minute f) = Ok [].
Proof.
  intros Hen Htr Herr Hsrv Haff.
  unfold _system_health_check, is_task_enabled in *.
  destruct (load_config f) as [config f1] eqn:Hl.
  cbv beta iota in Hen |- *. cbn [fst] in Hen.
  rewrite Hen, Htr. simpl.
  unfold health_check_body. simpl. rewrite Herr, Hsrv. simpl.
  by rewrite collect_issues_affected, Haff.
Qed.

End WithStr.

Lemma health_failure_alert_witness :
  fst (_system_health_check (fun _ => "?")
         (check_health (fun _ => "connection refused") (Raise RequestException))
         9 0 Missing)
  = Ok (if false then []
        else [alert ("System Alert: Health check failed - "
                     +:+ fmt (fun _ => "?") (JStr "connection refused"))]).
Proof.
  apply (health_failure_alert (fun _ => "?") Missing 9 0
           [("error", JStr "connection refused"); ("services", JObj [])]
           (JStr "connection refused") (JBool true) false).
  - reflexivity.
  - reflexivity.
  - reflexivity.
  - reflexivity.
Defined.

Lemma health_all_connected_is_silent_witness :
  fst (_system_health_check (fun _ => "?")
         (JObj [("services", JObj [("llm", JObj [("status", JStr "connected")]);
                                   ("note", JStr "not an object")])])
         9 0 Missing) = Ok [].
Proof.
  apply (health_all_connected_is_silent (fun _ => "?") Missing 9 0
           [("services", JObj [("llm", JObj [("status", JStr "connected")]);
                               ("note", JStr "not an object")])]
           [("llm", JObj [("status", JStr "connected")]);
            ("note", JStr "not an object")] (JBool true)).
  - reflexivity.
  - reflexivity.
  - reflexivity.
  - reflexivity.
  - reflexivity.
Defined.

End HealthMoreFacts.

(** ** Conditions on the clock *)

Module ConditionFacts.
Import Conditions.

Lemma replace_ok (now : datetime) (h m s : Z) :
  (0 <= h < 24)%Z → (0 <= m < 60)%Z →
  replace now h m s
  = Ok {| hour := h; minute := m; second := s; microsecond := microsecond now |}.
Proof.
  intros Hh Hm. unfold replace.
  destruct (Z.leb_spec 0 h), (Z.ltb_spec h 24), (Z.leb_spec 0 m),
    (Z.ltb_spec m 60); simpl; try lia. done.
Qed.

(** X24. The time-range condition looks at hours and minutes only and is
    inclusive at both ends: with bounds [after] and [before] that parse to
    valid times, it holds exactly when the minute of the day lies in
    [after .. before], or, for an overnight range, is at least [after] or
    at most [before]. *)
Theorem time_range_inclusive (condition : dict) (now : datetime)
    (ah am bh bm : Z) :
  hour_minute (get_or "after" (JStr "00:00") condition) = Ok (ah, am) →
  hour_minute (get_or "before" (JStr "23:59") condition) = Ok (bh, bm) →
  (0 <= ah < 24 ∧ 0 <= am < 60)%Z →
  (0 <= bh < 24 ∧ 0 <= bm < 60)%Z →
  valid_time now →
  let a := (ah * 60 + am)%Z in
  let b := (bh * 60 + bm)%Z in
  let m := (hour now * 60 + minute now)%Z in
  _eval_time_range_condition condition now
  = if (a <=? b)%Z then (a <=? m)%Z && (m <=? b)%Z
    else (a <=? m)%Z || (m <=? b)%Z.
Proof.
  intros Ha Hb [Hah Ham] [Hbh Hbm] (Hh & Hm & Hs & Hus).
  unfold _eval_time_range_condition, time_range_body.
  rewrite Ha, Hb. simpl.
  rewrite !replace_ok by done. simpl. unfold ticks. simpl.
  repeat match goal with
         | |- context [(?x <=? ?y)%Z] => destruct (Z.leb_spec x y)
         end; simpl; try reflexivity; lia.
Qed.

Lemma time_range_inclusive_witness :
  let condition := [("type", JStr "time_range"); ("after", JStr "22:00");
                    ("before", JStr "06:00")] in
  let now := {| hour := 6; minute := 0; second := 59; microsecond := 999999 |} in
  _eval_time_range_condition condition now
  = if (22 * 60 + 0 <=? 6 * 60 + 0)%Z
    then (22 * 60 + 0 <=? hour now * 60 + minute now)%Z
         && (hour now * 60 + minute now <=? 6 * 60 + 0)%Z
    else (22 * 60 + 0 <=? hour now * 60 + minute now)%Z
         || (hour now * 60 + minute now <=? 6 * 60 + 0)%Z.
Proof.
  apply (time_range_inclusive
           [("type", JStr "time_range"); ("after", JStr "22:00");
            ("before", JStr "06:00")]
           {| hour := 6; minute := 0; second := 59; microsecond := 999999 |}
           22 0 6 0).
  - reflexivity.
  - reflexivity.
  - lia.
  - lia.
  - unfold valid_time. simpl. lia.
Defined.

(** A bound that is not a time of day makes the time-range condition
    false at every moment: an hour outside 0..23 or a minute outside 0..59
    in [after] is refused by [replace], and the exception counts as not
    met. *)
Theorem time_range_invalid_after (condition : dict) (now : datetime) (ah am : Z) :
  hour_minute (get_or "after" (JStr "00:00") condition) = Ok (ah, am) →
  ¬ (0 <= ah < 24 ∧ 0 <= am < 60)%Z →
  _eval_time_range_condition condition now = false.
Proof.
  intros Ha Hbad. unfold _eval_time_range_condition, time_range_body.
  rewrite Ha. simpl.
  assert (replace now ah am 0 = Raise ValueError) as Hr.
  2: { destruct (hour_minute (get_or "before" _ _)) as [[bh bm]|]; simpl; [|done].
       by rewrite Hr. }
  unfold replace.
  destruct (Z.leb_spec 0 ah), (Z.ltb_spec ah 24), (Z.leb_spec 0 am),
    (Z.ltb_spec am 60); simpl; try done; lia.
Qed.

Lemma time_range_invalid_after_witness :
  _eval_time_range_condition [("after", JStr "24:00"); ("before", JStr "06:00")]
    {| hour := 3; minute := 0; second := 0; microsecond := 0 |} = false.
Proof.
  apply (time_range_invalid_after _ _ 24 0).
  - reflexivity.
  - lia.
Defined.





End ConditionFacts.

(** ** More of the message parser *)

Module IntakeFacts.
Import MessageParser Intake.

Lemma parse_attachment_ok (a : json) (info : attachment_info) (voice : bool) :
  parse_attachment a = Ok (info, voice) →
  att_id info = get_or "id" JNull (dict_of_json a) ∧ voice = flags_voice a.
Proof.
  destruct a as [ | | | | | |d]; try done.
  unfold parse_attachment, flags_voice. simpl.
  destruct (truthy (get_or "voiceNote" JNull d)); simpl.
  - by intros [= <- <-].
  - destruct (py_in "audio" _); simpl; [|done]. by intros [= <- <-].
Qed.

Lemma parse_attachments_ok (l : list json) (infos : list attachment_info)
    (voice : bool) :
  parse_attachments l = Ok (infos, voice) →
  map att_id infos = map (fun a => get_or "id" JNull (dict_of_json a)) l
  ∧ voice = existsb flags_voice l.
Proof.
  revert infos voice. induction l as [|a l IH]; intros infos voice; simpl.
  { by intros [= <- <-]. }
  destruct (parse_attachment a) as [[info v]|] eqn:Ha; simpl; [|done].
  destruct (parse_attachments l) as [[infos' v']|]; simpl; [|done].
  intros [= <- <-].
  destruct (parse_attachment_ok a info v Ha) as [Hid ->].
  destruct (IH infos' v' eq_refl) as [Hids ->].
  simpl. by rewrite Hid, Hids.
Qed.

(** What the parser does once a payload is selected and accepted. *)
Lemma parse_envelope_some (envelope : dict) (r : intake) :
  parse_envelope envelope = Ok (Some r) →
  ∃ data items,
    select_data envelope = Ok (JObj data)
    ∧ truthy (envelope_source envelope) = true
    ∧ (truthy (get_or "message" (JStr "") data) = true
       ∨ truthy (get_or "attachments" JNull data) = true)
    ∧ py_iter (get_or "attachments" (JArr []) data) = Ok items
    ∧ parse_attachments items = Ok (attachments r, is_voice_note r)
    ∧ source r = envelope_source envelope
    ∧ message r = get_or "message" (JStr "") data
    ∧ timestamp r = get_or "timestamp" (JInt 0) data.
Proof.
  unfold parse_envelope.
  destruct (select_data envelope) as [data|]; simpl; [|done].
  destruct (truthy data) eqn:Hd; simpl; [|done].
  destruct (truthy (envelope_source envelope)) eqn:Hs; simpl; [|done].
  destruct data as [ | | | | | |d]; try done. simpl.
  destruct (truthy (get_or "message" (JStr "") d)) eqn:Hm;
    destruct (truthy (get_or "attachments" JNull d)) eqn:Ha; simpl; try done.
  all: destruct (py_iter _) as [items|] eqn:Hi; simpl; [|done].
  all: destruct (parse_attachments items) as [[infos v]|] eqn:Hp; simpl; [|done].
  all: destruct (parse_quote _) as [q|]; simpl; [|done].
  all: intros [= <-]; simpl; exists d, items; split_and!; auto.
Qed.

(** X26. Every intake record has a sender and content: a source that is
    the envelope's [source], or its [sourceNumber] when that is empty, and
    is not empty itself, and message text or at least one attachment. *)
Theorem intake_has_sender_and_content (envelope : dict) (r : intake) :
  parse_envelope envelope = Ok (Some r) →
  source r = envelope_source envelope
  ∧ truthy (source r) = true
  ∧ (truthy (message r) = true ∨ attachments r ≠ []).
Proof.
  intros (data & items & _ & Hs & Hc & Hi & Hp & -> & -> & _)%parse_envelope_some.
  split; [done|]. split; [done|].
  destruct Hc as [Hm|Ha]; [by left|]. right.
  unfold get_or in Ha, Hi.
  destruct (table_get "attachments" data) as [atts|]; [|done].
  destruct atts as [ | | | |s|l|d]; try done; simpl in Hi;
    injection Hi as <-.
  - destruct s as [|c s]; [done|]. simpl in Hp. done.
  - destruct l as [|a l]; [done|]. simpl in Hp.
    destruct (parse_attachment a) as [[info v]|]; simpl in Hp; [|done].
    destruct (parse_attachments l) as [[infos v']|]; simpl in Hp; [|done].
    injection Hp as <- _. done.
  - destruct d as [|[k x] d]; [done|]. simpl in Hp. done.
Qed.

Lemma intake_has_sender_and_content_witness :
  ∃ r, parse_envelope voice_note_envelope = Ok (Some r)
       ∧ source r = envelope_source voice_note_envelope
       ∧ truthy (source r) = true
       ∧ (truthy (message r) = true ∨ attachments r ≠ []).
Proof.
  eexists. split; [reflexivity|].
  apply (intake_has_sender_and_content voice_note_envelope). reflexivity.
Defined.

(** X27. The attachments of an intake record are those of the payload, one
    for one and in order (shown on their ids), and the record is a voice
    note exactly when some attachment carries a true [voiceNote] flag or a
    content type that contains ["audio"], anywhere in it. *)
Theorem intake_attachments_and_voice (envelope data : dict) (l : list json)
    (r : intake) :
  parse_envelope envelope = Ok (Some r) →
  select_data envelope = Ok (JObj data) →
  get_or "attachments" (JArr []) data = JArr l →
  map att_id (attachments r)
  = map (fun a => get_or "id" JNull (dict_of_json a)) l
  ∧ is_voice_note r = existsb flags_voice l.
Proof.
  intros (data' & items & Hsel & _ & _ & Hi & Hp & _)%parse_envelope_some
    Hsel' Hl.
  rewrite Hsel in Hsel'. injection Hsel' as ->.
  rewrite Hl in Hi. injection Hi as <-.
  by apply parse_attachments_ok.
Qed.

Lemma intake_attachments_and_voice_witness :
  ∃ r, parse_envelope voice_note_envelope = Ok (Some r)
       ∧ map att_id (attachments r) = [JStr "a1.aac"]
       ∧ is_voice_note r = true.
Proof.
  eexists. split; [reflexivity|].
  apply (intake_attachments_and_voice voice_note_envelope
           [ ("timestamp", JInt 1700000000000); ("message", JNull);
             ("attachments",
              JArr [JObj [ ("id", JStr "a1.aac");
                           ("contentType", JStr "audio/aac");
                           ("size", JInt 2048) ]]) ]
           [JObj [ ("id", JStr "a1.aac"); ("contentType", JStr "audio/aac");
                   ("size", JInt 2048) ]]).
  - reflexivity.
  - reflexivity.
  - reflexivity.
Defined.

Lemma match_canonical (x name : string) :
  _match_choom_name x = Some name → In name CANONICAL.
Proof.
  unfold _match_choom_name.
  generalize (Py.rstrip_chars PUNCT (Py.strip (Py.lower x))). intros k.
  unfold CHOOM_NAME_VARIANTS. cbn [table_get].
  repeat (destruct (String.eqb k _); [intros [= <-]; simpl; tauto|]).
  done.
Qed.

Lemma scan_words_canonical (n : nat) (ws : list string) (name cleaned : string) :
  scan_words n ws = Some (name, cleaned) → In name CANONICAL.
Proof.
  revert ws. induction n as [|n IH]; intros [|w ws]; simpl; try done.
  destruct (_match_choom_name _) eqn:E.
  - intros [= <- _]. eapply match_canonical, E.
  - destruct (is_skip_word _); [apply IH|done].
Qed.

(** X28. The resolver only ever names one of the five companions: whatever
    the message, a name it returns is the canonical spelling
    Genesis, Lissa, Aloy, Anya or Optic, never a variant or the text as
    typed. *)
Theorem extract_choom_name_canonical (message name cleaned : string) :
  extract_choom_name message = (Some name, cleaned) →
  In name CANONICAL.
Proof.
  unfold extract_choom_name.
  assert (Hsep : ∀ sep m n c, by_separator sep m = Some (n, c) → In n CANONICAL).
  { intros sep m n c. unfold by_separator.
    destruct (Py.split_once sep m) as [[a b]|]; [|done].
    destruct (_match_choom_name _) eqn:E; [|done].
    intros [= <- _]. eapply match_canonical, E. }
  destruct (by_separator ":" _) as [[n c]|] eqn:E1.
  { intros [= <- _]. eapply Hsep, E1. }
  destruct (by_separator "," _) as [[n c]|] eqn:E2.
  { intros [= <- _]. eapply Hsep, E2. }
  destruct (by_at_sign _) as [[n c]|] eqn:E3.
  { intros [= <- _]. unfold by_at_sign in E3.
    destruct (Py.startswith_char "@" _); [|done].
    destruct (Py.split_ws_1 _) as [|first parts]; [done|].
    destruct (_match_choom_name first) eqn:E; [|done].
    injection E3 as <- _. eapply match_canonical, E. }
  destruct (scan_words 5 _) as [[n c]|] eqn:E4; [|done].
  intros [= <- _]. eapply scan_words_canonical, E4.
Qed.

Lemma extract_choom_name_canonical_witness : In "Lissa" CANONICAL.
Proof.
  apply (extract_choom_name_canonical "hey LEESA, tell me a joke" "Lissa"
           "tell me a joke").
  reflexivity.
Defined.

End IntakeFacts.

(** ** Reloading the custom heartbeats *)

Module HeartbeatFacts.
Import Heartbeats.

Lemma max5_at_least (x : json) (q : Q) : max5 x = Ok q → (5 <= q)%Q.
Proof.
  unfold max5. destruct (num_of x) as [p|]; [|done].
  unfold ChoomClient.Qltb. destruct (Qle_bool p 5) eqn:E; simpl.
  - intros [= <-]. apply Qle_refl.
  - intros [= <-]. destruct (Qlt_le_dec 5 p) as [H|H].
    + by apply Qlt_le_weak.
    + apply Qle_bool_iff in H. congruence.
Qed.

Lemma round_ok_refl (tasks : list json) (st : reload_state) : round_ok tasks st st.
Proof. split_and!; auto. Qed.

Lemma round_ok_trans (tasks : list json) (a b c : reload_state) :
  round_ok tasks a b → round_ok tasks b c → round_ok tasks a c.
Proof.
  intros (A1 & A2 & A3 & A4) (B1 & B2 & B3 & B4). split_and!.
  - intros s Hs. destruct (B1 s Hs) as [H|H]; [by apply A1|by right].
  - intros s Hs. by apply B2, A2.
  - intros s j Hj. destruct (B3 s j Hj) as [H|H]; [by apply A3|by right].
  - intros s Hs. by rewrite B4, A4.
Qed.

Lemma round_ok_mono (tasks : list json) (task : json) (st st' : reload_state) :
  round_ok [task] st st' → round_ok (task :: tasks) st st'.
Proof.
  assert (Hl : ∀ s, listed s [task] → listed s (task :: tasks)).
  { intros s (d & Hd & Hk). exists d. split; [|done].
    apply list_elem_of_singleton in Hd as ->. by left. }
  intros (A1 & A2 & A3 & A4). split_and!.
  - intros s Hs. destruct (A1 s Hs) as [H|H]; [by left|right; by apply Hl].
  - done.
  - intros s j Hj. destruct (A3 s j Hj) as [H|H]; [by left|right].
    destruct H as (m & c & p & r & -> & Hm & H). exists m, c, p, r. auto.
  - intros s Hs. apply A4. intros H. by apply Hs, Hl.
Qed.

Lemma round_ok_tail (tasks : list json) (task : json) (st st' : reload_state) :
  round_ok tasks st st' → round_ok (task :: tasks) st st'.
Proof.
  assert (Hl : ∀ s, listed s tasks → listed s (task :: tasks)).
  { intros s (d & Hd & Hk). exists d. split; [by right|done]. }
  intros (A1 & A2 & A3 & A4). split_and!.
  - intros s Hs. destruct (A1 s Hs) as [H|H]; [by left|right; by apply Hl].
  - done.
  - intros s j Hj. destruct (A3 s j Hj) as [H|H]; [by left|right].
    destruct H as (m & c & p & r & -> & Hm & H). exists m, c, p, r. auto.
  - intros s Hs. apply A4. intros H. by apply Hs, Hl.
Qed.

Lemma reload_task_ok (task : json) (st st' : reload_state) :
  reload_task task st = Ok st' → round_ok [task] st st'.
Proof.
  destruct st as [jobs ids]. unfold reload_task.
  destruct task as [ | | | | | |d]; try done. simpl.
  destruct (truthy (get_or "id" (JStr "") d)) eqn:Hid; simpl.
  2: { intros [= <-]. apply round_ok_refl. }
  assert (Hlisted : ∀ s, get_or "id" (JStr "") d = JStr s → listed s [JObj d]).
  { intros s Hs. exists d. split; [by left|].
    unfold get_or in Hs, Hid. destruct (table_get "id" d) as [v|]; [by subst|].
    done. }
  assert (Hdel : ∀ s, get_or "id" (JStr "") d = JStr s →
            round_ok [JObj d] (jobs, ids) (delete s jobs, s :: ids)).
  { intros s Hs. split_and!; simpl.
    - intros t [->|Ht]%elem_of_cons; [right; by apply Hlisted|by left].
    - intros t Ht. by right.
    - intros t j [_ Hj]%lookup_delete_Some. by left.
    - intros t Ht. apply lookup_delete_ne. intros ->. by apply Ht, Hlisted. }
  assert (Hskip : ∀ s, get_or "id" (JStr "") d = JStr s →
            round_ok [JObj d] (jobs, ids) (jobs, s :: ids)).
  { intros s Hs. split_and!; simpl; auto.
    - intros t [->|Ht]%elem_of_cons; [right; by apply Hlisted|by left].
    - intros t Ht. by right. }
  destruct (get_or "id" (JStr "") d) as [ |b|z|q|s| | ] eqn:Eid; try done.
  all: destruct (truthy (get_or "enabled" (JBool false) d)); simpl;
    [|intros [= <-]; first [by apply Hdel | apply round_ok_refl]].
  all: destruct (max5 _) as [interval|] eqn:Em; simpl; [|done].
  all: destruct (negb (truthy (get_or "choom_name" (JStr "") d))
                 || negb (truthy (get_or "prompt" (JStr "") d))); simpl;
    [intros [= <-]; first [by apply Hskip | apply round_ok_refl]|]; try done.
  destruct (jobs !! s) as [j|] eqn:Ej.
  { intros [= <-]. by apply Hskip. }
  intros [= <-]. split_and!; simpl.
  - intros t [->|Ht]%elem_of_cons; [right; by apply Hlisted|by left].
  - intros t Ht. by right.
  - intros t j [[<- <-]|[_ Hj]]%lookup_insert_Some; [right|by left].
    eexists _, _, _, _. split; [done|]. split; [by eapply max5_at_least|].
    by apply Hlisted.
  - intros t Ht. apply lookup_insert_ne. intros ->. by apply Ht, Hlisted.
Qed.

Lemma reload_tasks_ok (tasks : list json) (st st' : reload_state) :
  reload_tasks tasks st = Ok st' → round_ok tasks st st'.
Proof.
  revert st. induction tasks as [|task tasks IH]; intros st; simpl.
  { intros [= <-]. apply round_ok_refl. }
  destruct (reload_task task st) as [st1|] eqn:E; simpl; [|done].
  intros H. eapply round_ok_trans.
  - apply round_ok_mono, reload_task_ok, E.
  - apply round_ok_tail, IH, H.
Qed.

(** X29. After a reload no stale custom heartbeat is left: every job whose
    id starts with ["custom_hb_"] is listed, under that id, in the file's
    [custom_heartbeats]. *)
Theorem reload_leaves_no_stale_heartbeat (tasks : list json)
    (jobs jobs' : gmap string job) (s : string) :
  _reload_custom_heartbeats (JArr tasks) jobs = Ok jobs' →
  Py.startswith PREFIX s = true →
  is_Some (jobs' !! s) →
  listed s tasks.
Proof.
  unfold _reload_custom_heartbeats. simpl.
  destruct (reload_tasks tasks (jobs, [])) as [st|] eqn:E; simpl; [|done].
  intros [= <-] Hp [j Hj]. unfold remove_stale in Hj.
  apply map_lookup_filter_Some in Hj as [_ Hkeep]. simpl in Hkeep.
  apply reload_tasks_ok in E as (H1 & _).
  destruct (decide (s ∈ st.2)) as [Hin|Hout].
  - destruct (H1 s Hin) as [H|H]; [|done]. simpl in H. by apply elem_of_nil in H.
  - exfalso. apply Hkeep. by split.
Qed.

(** X30. A reload never reschedules: a job found after it is either a job
    that was registered before, unchanged (also when the file now gives
    another interval), or a heartbeat listed in the file with an interval
    of at least five minutes. A job that the file does not list and whose
    id does not start with ["custom_hb_"] is kept as it was. *)
Theorem reload_keeps_or_adds (tasks : list json) (jobs jobs' : gmap string job) :
  _reload_custom_heartbeats (JArr tasks) jobs = Ok jobs' →
  (∀ s j, jobs' !! s = Some j → jobs !! s = Some j ∨ fresh tasks s j)
  ∧ (∀ s, ¬ listed s tasks → Py.startswith PREFIX s = false →
          jobs' !! s = jobs !! s).
Proof.
  unfold _reload_custom_heartbeats. simpl.
  destruct (reload_tasks tasks (jobs, [])) as [st|] eqn:E; simpl; [|done].
  intros [= <-]. apply reload_tasks_ok in E as (_ & _ & H3 & H4).
  unfold remove_stale. split.
  - intros s j [Hj _]%map_lookup_filter_Some. by apply H3.
  - intros s Hs Hp. specialize (H4 s Hs). simpl in H4. rewrite <- H4.
    destruct (st.1 !! s) as [j|] eqn:Ej.
    + apply map_lookup_filter_Some. split; [done|]. simpl.
      intros [Hp' _]. congruence.
    + apply map_lookup_filter_None. by left.
Qed.

Lemma reload_leaves_no_stale_heartbeat_witness :
  listed "custom_hb_tea" demo_tasks.
Proof.
  apply (reload_leaves_no_stale_heartbeat demo_tasks demo_jobs demo_after
           "custom_hb_tea").
  - vm_compute. reflexivity.
  - reflexivity.
  - exists (HeartbeatJob 5 (JStr "Lissa") (JStr "tea?") (JBool true)).
    vm_compute. reflexivity.
Defined.

Lemma reload_keeps_or_adds_witness :
  (∀ s j, demo_after !! s = Some j →
          demo_jobs !! s = Some j ∨ fresh demo_tasks s j)
  ∧ (∀ s, ¬ listed s demo_tasks → Py.startswith PREFIX s = false →
          demo_after !! s = demo_jobs !! s).
Proof.
  apply (reload_keeps_or_adds demo_tasks demo_jobs demo_after).
  vm_compute. reflexivity.
Defined.

End HeartbeatFacts.
